(** * Pureref2Blender: a verification development

    The add-on in [Pureref2Blender.py] pastes the image held by the operating
    system clipboard into the 3D scene as an image empty.  This file embeds
    the add-on's functions and operators in Rocq and proves the properties
    its specification states about them.

    Layout:
    - [Mathutils]: the vector and matrix operations of the host's
      [mathutils] module that the add-on calls, read over the real numbers;
    - [Bpy]: the part of the host's data model that the add-on reads and
      writes (context, scene, screen areas, data-blocks, view layer), and the
      host calls as operations of an error-and-state monad;
    - [Addon]: the add-on's own functions and operators, line by line;
    - [Scenarios]: the vocabulary of the statements and the concrete
      cameras, hosts, contexts and worlds of the examples;
    - [Lifecycle]: the preferences panel, [poll] and [unregister];
    - [Inputs]: more vocabulary and inputs;
    - [MathutilsFacts]: vector and matrix algebra;
    - [CameraFacing]: the properties of [get_camera_facing_position];
    - [Operators]: the properties of the operators' [execute];
    - [CameraExtras], [ViewportFacing], [OperatorExtras], [LifecycleFacts]:
      further properties, also of the code in [Lifecycle].

    Numbers are real numbers: the statements about vectors are about the
    formulas of the add-on, not about the rounding of the host's
    single-precision arithmetic. *)

From Stdlib Require Import Reals Lra Psatz.
From stdpp Require Import base option list strings gmap.

(** ** The host's [mathutils] module, over the reals *)

Module Mathutils.

Local Open Scope R_scope.

(** [mathutils.Vector] of size three. *)
Record Vector : Type := mkVector { vx : R; vy : R; vz : R }.

(** A row of a 4x4 matrix. *)
Record Vector4 : Type := mkVector4 { x4 : R; y4 : R; z4 : R; w4 : R }.

(** [mathutils.Matrix] is row-major: [Matrix((a, b, c))] has rows a, b, c. *)
Record Matrix3 : Type := mkMatrix3 { row0 : Vector; row1 : Vector; row2 : Vector }.

Record Matrix4 : Type :=
  mkMatrix4 { r0 : Vector4; r1 : Vector4; r2 : Vector4; r3 : Vector4 }.

Definition zero_vector : Vector := mkVector 0 0 0.

(** [a + b], [a - b], [-a], [a * s] on vectors. *)
Definition vadd (a b : Vector) : Vector :=
  mkVector (vx a + vx b) (vy a + vy b) (vz a + vz b).

Definition vsub (a b : Vector) : Vector :=
  mkVector (vx a - vx b) (vy a - vy b) (vz a - vz b).

Definition vneg (a : Vector) : Vector :=
  mkVector (- vx a) (- vy a) (- vz a).

Definition vscale (a : Vector) (s : R) : Vector :=
  mkVector (vx a * s) (vy a * s) (vz a * s).

(** [a.dot(b)] and [a.cross(b)]. *)
Definition dot (a b : Vector) : R :=
  vx a * vx b + vy a * vy b + vz a * vz b.

Definition cross (a b : Vector) : Vector :=
  mkVector (vy a * vz b - vz a * vy b)
           (vz a * vx b - vx a * vz b)
           (vx a * vy b - vy a * vx b).

(** [v.length]. *)
Definition magnitude (v : Vector) : R := sqrt (dot v v).

(** [v.normalized()]: the vector scaled by the inverse of its length; the
    host returns the zero vector for a vector of length zero. *)
Definition normalized (v : Vector) : Vector :=
  if Req_dec_T (dot v v) 0 then zero_vector else vscale v (/ magnitude v).

(** [m.to_3x3()]: the upper-left 3x3 block. *)
Definition to_3x3 (m : Matrix4) : Matrix3 :=
  mkMatrix3 (mkVector (x4 (r0 m)) (y4 (r0 m)) (z4 (r0 m)))
            (mkVector (x4 (r1 m)) (y4 (r1 m)) (z4 (r1 m)))
            (mkVector (x4 (r2 m)) (y4 (r2 m)) (z4 (r2 m))).

(** [m.translation]: the first three entries of the last column. *)
Definition translation (m : Matrix4) : Vector :=
  mkVector (w4 (r0 m)) (w4 (r1 m)) (w4 (r2 m)).

(** [m @ v]. *)
Definition mat_vec (m : Matrix3) (v : Vector) : Vector :=
  mkVector (dot (row0 m) v) (dot (row1 m) v) (dot (row2 m) v).

(** [m.transposed()]. *)
Definition transposed (m : Matrix3) : Matrix3 :=
  mkMatrix3 (mkVector (vx (row0 m)) (vx (row1 m)) (vx (row2 m)))
            (mkVector (vy (row0 m)) (vy (row1 m)) (vy (row2 m)))
            (mkVector (vz (row0 m)) (vz (row1 m)) (vz (row2 m))).

(** [a @ b] on 3x3 matrices. *)
Definition mat_mul (a b : Matrix3) : Matrix3 :=
  let bt := transposed b in
  mkMatrix3 (mat_vec bt (row0 a)) (mat_vec bt (row1 a)) (mat_vec bt (row2 a)).

Definition identity3 : Matrix3 :=
  mkMatrix3 (mkVector 1 0 0) (mkVector 0 1 0) (mkVector 0 0 1).

Definition determinant (m : Matrix3) : R :=
  dot (row0 m) (cross (row1 m) (row2 m)).

(** A matrix is orthonormal when its columns are pairwise orthogonal unit
    vectors, that is when its transpose is its inverse. *)
Definition orthonormal (m : Matrix3) : Prop :=
  mat_mul (transposed m) m = identity3.

(** The columns of a matrix: the images of the local X, Y and Z axes. *)
Definition col0 (m : Matrix3) : Vector := mat_vec m (mkVector 1 0 0).
Definition col1 (m : Matrix3) : Vector := mat_vec m (mkVector 0 1 0).
Definition col2 (m : Matrix3) : Vector := mat_vec m (mkVector 0 0 1).

End Mathutils.

(** ** The host's data model and API, as far as the add-on uses it *)

Module Bpy.

Import Mathutils.

(** Where the class of a raised exception stands among the classes the
    [except] clauses of the add-on name: [ImportError] or a subclass, another
    subclass of [Exception], or a [BaseException] that is no [Exception]
    ([KeyboardInterrupt], [SystemExit], [GeneratorExit]). *)
Inductive exception_kind : Type :=
| ImportErrorKind
| ExceptionKind
| BaseExceptionKind.

(** A raised Python exception: its kind and its [str()]. *)
Record py_exception : Type :=
  mkRaised { exc_kind : exception_kind; exc_str : string }.

(** An instance of [Exception], of [ImportError] or not. *)
Definition mkException (is_import_error : bool) (message : string)
  : py_exception :=
  mkRaised (if is_import_error then ImportErrorKind else ExceptionKind) message.

(** [isinstance(e, ImportError)] and [isinstance(e, Exception)]. *)
Definition exc_is_import_error (e : py_exception) : bool :=
  match exc_kind e with
  | ImportErrorKind => true
  | _ => false
  end.

Definition exc_is_exception (e : py_exception) : bool :=
  match exc_kind e with
  | BaseExceptionKind => false
  | _ => true
  end.

Arguments exc_is_import_error e : simpl nomatch.
Arguments exc_is_exception e : simpl nomatch.

Inductive result (A : Type) : Type :=
| Return (a : A)
| Raise (e : py_exception).
Arguments Return {A} a.
Arguments Raise {A} e.

(** The levels of [Operator.report] and the values of [empty_display_type]
    and of an operator's return set that occur in the add-on or are the
    host's defaults. *)
Inductive report_level : Type := INFO | WARNING | ERROR.

Inductive display_type : Type := PLAIN_AXES | IMAGE.

Inductive status : Type := FINISHED | CANCELLED.

(** A [PIL.Image.Image]: the format it was decoded from and its pixels. *)
Record pil_image : Type :=
  mkPilImage { pil_format : string; pil_pixels : string }.

(** What [ImageGrab.grabclipboard()] returns: an image, a list of file
    names, or [None]. *)
Inductive clipboard_content : Type :=
| ClipImage (image : pil_image)
| ClipFiles (paths : list string)
| ClipNone.

(** Attributes of an object that the add-on assigns. *)
Inductive attribute : Type :=
| AttrEmptyDisplayType | AttrData | AttrLocation | AttrRotationEuler | AttrScale.

#[global] Instance attribute_eq_dec : EqDecision attribute.
Proof. solve_decision. Defined.

(** An image data-block of [bpy.data.images]. *)
Record Image : Type := mkImage { image_name : string; image_filepath : string }.

(** An object of [bpy.data.objects]; [data] is an index into
    [bpy.data.images], [select] is what [select_get()] returns. *)
Record Object : Type := mkObject {
  obj_name : string;
  empty_display_type : display_type;
  data : option nat;
  location : Vector;
  rotation_euler : Vector;
  scale : Vector;
  select : bool
}.

(** The classes of the add-on that [register] hands to the host. *)
Inductive addon_class : Type :=
| InstallPillowOperator
| PastePureRefImageOperator
| PastePureRefFromCursorOperator
| PasterefPreferences.

(** Everything the add-on can change: the files on disk, the data-blocks,
    the objects of [context.collection], the active object of the view
    layer, the reports shown to the user, the registered classes and the
    entries appended to the Add menu of the 3D viewport.  [files] gives, for
    a path as the string handed to [image.save], the image last saved there.
    [attr_log] is the history of attribute assignments made through the API,
    oldest first. *)
Record World : Type := mkWorld {
  files : gmap string pil_image;
  images : list Image;
  objects : list Object;
  collection_objects : list nat;
  active_object : option nat;
  reports : list (report_level * string);
  attr_log : list (nat * attribute);
  classes : list addon_class;
  view3d_mt_add : list (list addon_class)
}.

(** The part of the context the add-on only reads. *)
Record Region : Type := mkRegion { region_type : string }.

Record Space : Type := mkSpace { view_matrix : Matrix4 }.

Record Area : Type :=
  mkArea { area_type : string; regions : list Region; spaces : list Space }.

Record Camera : Type := mkCamera { matrix_world : Matrix4 }.

Record Scene : Type :=
  mkScene { camera : option Camera; cursor_location : Vector }.

Record Context : Type := mkContext { scene : Scene; screen_areas : list Area }.

(** The host calls made by the add-on, in the order of first appearance. *)
Inductive host_call : Type :=
| ImportEnsurepip | EnsurepipBootstrap | PipInstall
| ImportPIL | GrabClipboard | GetTempDir | ImageSave | ImagesLoad
| ObjectsNew | SetAttr (a : attribute) | ObjectsLink | SetActive | SelectSet
| RegisterClass (c : addon_class) | MenuAppend.

(** The environment of one run.  [raises c = Some e] says that host call
    [c] raises [e] instead of doing its work; the other fields are the
    values the host and the standard library answer with.  [inverted]
    answers [None] where [Matrix.inverted()] raises [ValueError]. *)
Record Host : Type := mkHost {
  raises : host_call -> option py_exception;
  clipboard : clipboard_content;
  tempdir : string;
  path_join : string -> string -> string;
  basename : string -> string;
  inverted : Matrix4 -> option Matrix4;
  to_euler : Matrix3 -> Vector
}.

(** *** The monad of host calls: state and exceptions *)

Definition M (A : Type) : Type := World -> result A * World.

Definition ret {A : Type} (a : A) : M A := fun w => (Return a, w).

Definition raise {A : Type} (e : py_exception) : M A := fun w => (Raise e, w).

Definition bind {A B : Type} (m : M A) (f : A -> M B) : M B :=
  fun w => match m w with
           | (Return a, w1) => f a w1
           | (Raise e, w1) => (Raise e, w1)
           end.

(** [try: body except ... as e: handler e]; [handler] raises again what
    no [except] clause matches. *)
Definition try_except {A : Type} (body : M A) (handler : py_exception -> M A)
  : M A :=
  fun w => match body w with
           | (Return a, w1) => (Return a, w1)
           | (Raise e, w1) => handler e w1
           end.

Definition lift {A : Type} (r : result A) : M A := fun w => (r, w).

Declare Scope host_scope.
Delimit Scope host_scope with host.
Notation "'do' x <- m ; k" := (bind m (fun x => k))
  (at level 10, x name, m at level 100, k at level 200) : host_scope.
Notation "'do' ' p <- m ; k" := (bind m (fun x => match x with p => k end))
  (at level 10, p pattern, m at level 100, k at level 200) : host_scope.
Notation "'run' m ; k" := (bind m (fun _ => k))
  (at level 10, m at level 100, k at level 200) : host_scope.

Section HostCalls.

Variable h : Host.

(** A host call either raises what the environment says or does its work. *)
Definition call {A : Type} (c : host_call) (work : M A) : M A :=
  fun w => match raises h c with
           | Some e => (Raise e, w)
           | None => work w
           end.

(** [self.report({level}, message)] *)
Definition report (level : report_level) (message : string) : M unit :=
  fun w => (Return tt,
            mkWorld (files w) (images w) (objects w) (collection_objects w)
                    (active_object w) (reports w ++ [(level, message)])
                    (attr_log w) (classes w) (view3d_mt_add w)).

(** [from PIL import ImageGrab, Image] *)
Definition import_PIL : M unit := call ImportPIL (ret tt).

(** [ImageGrab.grabclipboard()] *)
Definition grabclipboard : M clipboard_content :=
  call GrabClipboard (ret (clipboard h)).

(** [tempfile.gettempdir()] *)
Definition gettempdir : M string := call GetTempDir (ret (tempdir h)).

(** [image.save(path)]: the file at [path] is created or replaced. *)
Definition image_save (image : pil_image) (path : string) : M unit :=
  call ImageSave (fun w =>
    (Return tt,
     mkWorld (<[path := image]> (files w)) (images w) (objects w)
             (collection_objects w) (active_object w) (reports w)
             (attr_log w) (classes w) (view3d_mt_add w))).

(** [bpy.data.images.load(path)]: a new image data-block that refers to the
    file; the answer is its index. *)
Definition images_load (path : string) : M nat :=
  call ImagesLoad (fun w =>
    (Return (length (images w)),
     mkWorld (files w) (images w ++ [mkImage (basename h path) path])
             (objects w) (collection_objects w) (active_object w)
             (reports w) (attr_log w) (classes w) (view3d_mt_add w))).

(** The object [bpy.data.objects.new(name, None)] makes: an empty with the
    host's defaults.  The name is taken as given: the suffix the host adds
    to a name already in use is not modelled. *)
Definition new_object (name : string) : Object :=
  mkObject name PLAIN_AXES None zero_vector zero_vector (mkVector 1 1 1) false.

Definition objects_new (name : string) : M nat :=
  call ObjectsNew (fun w =>
    (Return (length (objects w)),
     mkWorld (files w) (images w) (objects w ++ [new_object name])
             (collection_objects w) (active_object w) (reports w)
             (attr_log w) (classes w) (view3d_mt_add w))).

(** [ref.<a> = value], with [update] the change it makes to the object. *)
Definition set_attr (ref : nat) (a : attribute) (update : Object -> Object)
  : M unit :=
  call (SetAttr a) (fun w =>
    (Return tt,
     mkWorld (files w) (images w) (alter update ref (objects w))
             (collection_objects w) (active_object w) (reports w)
             (attr_log w ++ [(ref, a)]) (classes w) (view3d_mt_add w))).

Definition with_empty_display_type (v : display_type) (o : Object) : Object :=
  mkObject (obj_name o) v (data o) (location o) (rotation_euler o) (scale o)
           (select o).

Definition with_data (v : option nat) (o : Object) : Object :=
  mkObject (obj_name o) (empty_display_type o) v (location o)
           (rotation_euler o) (scale o) (select o).

Definition with_location (v : Vector) (o : Object) : Object :=
  mkObject (obj_name o) (empty_display_type o) (data o) v (rotation_euler o)
           (scale o) (select o).

Definition with_rotation_euler (v : Vector) (o : Object) : Object :=
  mkObject (obj_name o) (empty_display_type o) (data o) (location o) v
           (scale o) (select o).

Definition with_scale (v : Vector) (o : Object) : Object :=
  mkObject (obj_name o) (empty_display_type o) (data o) (location o)
           (rotation_euler o) v (select o).

Definition with_select (v : bool) (o : Object) : Object :=
  mkObject (obj_name o) (empty_display_type o) (data o) (location o)
           (rotation_euler o) (scale o) v.

(** [context.collection.objects.link(ref)] *)
Definition objects_link (ref : nat) : M unit :=
  call ObjectsLink (fun w =>
    (Return tt,
     mkWorld (files w) (images w) (objects w) (collection_objects w ++ [ref])
             (active_object w) (reports w) (attr_log w) (classes w)
             (view3d_mt_add w))).

(** [bpy.context.view_layer.objects.active = ref] *)
Definition set_active (ref : nat) : M unit :=
  call SetActive (fun w =>
    (Return tt,
     mkWorld (files w) (images w) (objects w) (collection_objects w)
             (Some ref) (reports w) (attr_log w) (classes w)
             (view3d_mt_add w))).

(** [ref.select_set(state)] *)
Definition select_set (ref : nat) (state : bool) : M unit :=
  call SelectSet (fun w =>
    (Return tt,
     mkWorld (files w) (images w) (alter (with_select state) ref (objects w))
             (collection_objects w) (active_object w) (reports w)
             (attr_log w) (classes w) (view3d_mt_add w))).

(** [bpy.utils.register_class(c)] and [bpy.types.VIEW3D_MT_add.append(f)] *)
Definition register_class (c : addon_class) : M unit :=
  call (RegisterClass c) (fun w =>
    (Return tt,
     mkWorld (files w) (images w) (objects w) (collection_objects w)
             (active_object w) (reports w) (attr_log w) (classes w ++ [c])
             (view3d_mt_add w))).

Definition menu_append (f : list addon_class) : M unit :=
  call MenuAppend (fun w =>
    (Return tt,
     mkWorld (files w) (images w) (objects w) (collection_objects w)
             (active_object w) (reports w) (attr_log w) (classes w)
             (view3d_mt_add w ++ [f]))).

(** [m.inverted()] *)
Definition matrix_inverted (m : Matrix4) : result Matrix4 :=
  match inverted h m with
  | Some m' => Return m'
  | None =>
      Raise (mkException false
               "Matrix.invert(ed): matrix does not have an inverse")
  end.

(** [img.name] *)
Definition image_name_of (img : nat) : M string :=
  fun w => (Return (default EmptyString (image_name <$> images w !! img)), w).

(** [area.spaces[0]] *)
Definition spaces_0 (area : Area) : result Space :=
  match spaces area with
  | space :: _ => Return space
  | [] =>
      Raise (mkException false
               "bpy_prop_collection[index]: index 0 out of range, size 0")
  end.

Definition rbind {A B : Type} (r : result A) (f : A -> result B) : result B :=
  match r with
  | Return a => f a
  | Raise e => Raise e
  end.

End HostCalls.

End Bpy.

(** ** The add-on *)

Module Addon.

Import Mathutils Bpy.

Local Open Scope R_scope.
Local Open Scope host_scope.

Section Functions.

Variable h : Host.

(** *** [InstallPillowOperator.execute] (lines 22-30) *)

Definition InstallPillowOperator_try : M unit :=
  run call h ImportEnsurepip (ret tt);
  run call h EnsurepipBootstrap (ret tt);
  run call h PipInstall (ret tt);
  report INFO "Pillow installed successfully. Please restart Blender.".

(** The [except Exception as e] clause of line 28. *)
Definition install_handler (e : py_exception) : M unit :=
  if exc_is_exception e
  then report ERROR ("Failed to install Pillow: " +:+ exc_str e)
  else raise e.

Definition InstallPillowOperator_execute (context : Context) : M status :=
  run try_except InstallPillowOperator_try install_handler;
  ret FINISHED.

(** *** [get_camera_facing_position] (lines 39-80) *)

(** Lines 52-53: [forward]. *)
Definition camera_forward (camera_matrix : Matrix4) : Vector :=
  let forward_vector := mat_vec (to_3x3 camera_matrix) (mkVector 0 0 (-1)) in
  normalized forward_vector.

(** Lines 56-57: [position]. *)
Definition camera_position (camera_matrix : Matrix4) (distance : R) : Vector :=
  let forward := camera_forward camera_matrix in
  let camera_location := translation camera_matrix in
  vadd camera_location (vscale forward distance).

(** Line 61: [direction]. *)
Definition camera_direction (camera_matrix : Matrix4) (distance : R) : Vector :=
  let camera_location := translation camera_matrix in
  let position := camera_position camera_matrix distance in
  normalized (vsub camera_location position).

(** Lines 64-76: [rotation_matrix]. *)
Definition camera_rotation_matrix (camera_matrix : Matrix4) (distance : R)
  : Matrix3 :=
  let direction := camera_direction camera_matrix distance in
  let right_up :=
    if Rlt_dec (Rabs (vz direction)) (999 / 1000) then
      let up := mkVector 0 0 1 in
      let right := normalized (cross direction up) in
      let up := normalized (cross right direction) in
      (right, up)
    else
      (mkVector 1 0 0, mkVector 0 1 0) in
  let right := fst right_up in
  let up := snd right_up in
  transposed (mkMatrix3 right up (vneg direction)).


(** *** [get_viewport_facing_position] (lines 82-107) *)

(** Lines 90-104: the body run for the first window region of a 3D view. *)
Definition viewport_facing (area : Area) (distance : R)
  : result (Vector * Vector) :=
  rbind (spaces_0 area) (fun space =>
  let view_matrix := view_matrix space in
  rbind (matrix_inverted h view_matrix) (fun inverted_1 =>
  let view_location := translation inverted_1 in
  rbind (matrix_inverted h view_matrix) (fun inverted_2 =>
  let view_rotation := to_euler h (to_3x3 inverted_2) in
  rbind (matrix_inverted h view_matrix) (fun inverted_3 =>
  let forward := mat_vec (to_3x3 inverted_3) (mkVector 0 0 (-1)) in
  let forward := normalized forward in
  let position := vadd view_location (vscale forward distance) in
  Return (position, view_rotation))))).

(** The inner loop: [None] when it ends without a [return]. *)
Fixpoint scan_regions (area : Area) (distance : R) (rs : list Region)
  : option (result (Vector * Vector)) :=
  match rs with
  | [] => None
  | region :: rest =>
      if String.eqb (region_type region) "WINDOW"
      then Some (viewport_facing area distance)
      else scan_regions area distance rest
  end.

(** The outer loop, with the fallback of line 107 after it. *)
Fixpoint scan_areas (distance : R) (areas : list Area)
  : result (Vector * Vector) :=
  match areas with
  | [] => Return (mkVector 0 0 0, mkVector 0 0 0)
  | area :: rest =>
      if String.eqb (area_type area) "VIEW_3D" then
        match scan_regions area distance (regions area) with
        | Some answer => answer
        | None => scan_areas distance rest
        end
      else scan_areas distance rest
  end.

Definition get_viewport_facing_position (context : Context) (distance : R)
  : result (Vector * Vector) :=
  scan_areas distance (screen_areas context).

(** *** The paste operators *)

Definition pillow_missing : string :=
  "Pillow is not installed. Please install Pillow from the add-on preferences and restart Blender.".

(** The two [except] clauses shared by both operators (lines 154-157 and
    209-212); what is no [Exception] is matched by neither and leaves
    [execute]. *)
Definition paste_handler (e : py_exception) : M unit :=
  if exc_is_import_error e
  then report ERROR pillow_missing
  else if exc_is_exception e
       then report ERROR (exc_str e)
       else raise e.

(** [PastePureRefImageOperator.execute], the [try] block (lines 121-153). *)
Definition PastePureRefImageOperator_try (context : Context) : M unit :=
  run import_PIL h;
  do image <- grabclipboard h;
  match image with
  | ClipImage image =>
      do temp_dir <- gettempdir h;
      let temp_path := path_join h temp_dir "clipboard_image.png" in
      run image_save h image temp_path;
      do img <- images_load h temp_path;
      do name <- image_name_of img;
      do ref <- objects_new h name;
      run set_attr h ref AttrEmptyDisplayType (with_empty_display_type IMAGE);
      run set_attr h ref AttrData (with_data (Some img));
      do ' (position, rotation) <- lift (get_viewport_facing_position context 5);
      run set_attr h ref AttrLocation (with_location position);
      run set_attr h ref AttrRotationEuler (with_rotation_euler rotation);
      let base_scale := 2 in
      run set_attr h ref AttrScale
            (with_scale (mkVector base_scale base_scale 1));
      run objects_link h ref;
      run set_active h ref;
      run select_set h ref true;
      report INFO
        "Image pasted from clipboard and positioned in front of viewport"
  | _ => report WARNING "No image in clipboard"
  end.

Definition PastePureRefImageOperator_execute (context : Context) : M status :=
  run try_except (PastePureRefImageOperator_try context) paste_handler;
  ret FINISHED.

(** [PastePureRefFromCursorOperator.execute], the [try] block (lines
    173-208). *)
Definition PastePureRefFromCursorOperator_try (context : Context) : M unit :=
  run import_PIL h;
  do image <- grabclipboard h;
  match image with
  | ClipImage image =>
      do temp_dir <- gettempdir h;
      let temp_path := path_join h temp_dir "clipboard_image.png" in
      run image_save h image temp_path;
      do img <- images_load h temp_path;
      do name <- image_name_of img;
      do ref <- objects_new h name;
      run set_attr h ref AttrEmptyDisplayType (with_empty_display_type IMAGE);
      run set_attr h ref AttrData (with_data (Some img));
      let cursor_location := cursor_location (scene context) in
      run set_attr h ref AttrLocation (with_location cursor_location);
      do ' (_, rotation) <- lift (get_viewport_facing_position context 0);
      run set_attr h ref AttrRotationEuler (with_rotation_euler rotation);
      let base_scale := 2 in
      run set_attr h ref AttrScale
            (with_scale (mkVector base_scale base_scale 1));
      run objects_link h ref;
      run set_active h ref;
      run select_set h ref true;
      report INFO "Image pasted from clipboard at cursor position facing user"
  | _ => report WARNING "No image in clipboard"
  end.

Definition PastePureRefFromCursorOperator_execute (context : Context)
  : M status :=
  run try_except (PastePureRefFromCursorOperator_try context) paste_handler;
  ret FINISHED.

(** *** Registration (lines 225-234) *)

(** [menu_func]: the operators it adds to the menu, in order. *)
Definition menu_func : list addon_class :=
  [PastePureRefImageOperator; PastePureRefFromCursorOperator].

Definition register : M unit :=
  run register_class h InstallPillowOperator;
  run register_class h PastePureRefImageOperator;
  run register_class h PastePureRefFromCursorOperator;
  run register_class h PasterefPreferences;
  menu_append h menu_func.

(** The [execute] method of a class; the preferences panel is not an
    operator and has none. *)
Definition execute (c : addon_class) : option (Context -> M status) :=
  match c with
  | InstallPillowOperator => Some InstallPillowOperator_execute
  | PastePureRefImageOperator => Some PastePureRefImageOperator_execute
  | PastePureRefFromCursorOperator => Some PastePureRefFromCursorOperator_execute
  | PasterefPreferences => None
  end.

End Functions.

End Addon.

(** ** Vocabulary of the statements, and the inputs of the examples *)

Module Scenarios.

Import Mathutils Bpy Addon.

Local Open Scope R_scope.

(** What the camera's world matrix maps the -Z axis to (line 52). *)
Definition forward_vector (camera_matrix : Matrix4) : Vector :=
  mat_vec (to_3x3 camera_matrix) (mkVector 0 0 (-1)).

(** A camera at the origin that looks down, tilted about the Y axis by the
    angle whose cosine is 1012/1013 (about 2.5 degrees). *)
Definition tilted_camera : Matrix4 :=
  mkMatrix4 (mkVector4 (1012 / 1013) 0 (45 / 1013) 0)
            (mkVector4 0 1 0 0)
            (mkVector4 (- 45 / 1013) 0 (1012 / 1013) 0)
            (mkVector4 0 0 0 1).

(** The standard camera: at the origin, looking down the -Z axis. *)
Definition identity_camera : Matrix4 :=
  mkMatrix4 (mkVector4 1 0 0 0) (mkVector4 0 1 0 0)
            (mkVector4 0 0 1 0) (mkVector4 0 0 0 1).

(** A camera scaled by zero along its Z axis. *)
Definition flat_camera : Matrix4 :=
  mkMatrix4 (mkVector4 1 0 0 0) (mkVector4 0 1 0 0)
            (mkVector4 0 0 0 0) (mkVector4 0 0 0 1).

(** The path both operators save to (lines 124-125 and 176-177). *)
Definition temp_path (h : Host) : string :=
  path_join h (tempdir h) "clipboard_image.png".

(** A run has pasted when it ends with the [INFO] report, the last
    statement of the [try] block. *)
Definition pasted (w w' : World) : Prop :=
  exists message : string, reports w' = reports w ++ [(INFO, message)].

(** The object a completed paste leaves behind, and the world around it. *)
Definition pasted_object (h : Host) (w : World) (position rotation : Vector)
  : Object :=
  mkObject (basename h (temp_path h)) IMAGE (Some (length (images w)))
           position rotation (mkVector 2 2 1) true.

Definition pasted_world (h : Host) (message : string) (image : pil_image)
    (position rotation : Vector) (w : World) : World :=
  let ref := length (objects w) in
  mkWorld (<[temp_path h := image]> (files w))
          (images w ++ [mkImage (basename h (temp_path h)) (temp_path h)])
          (objects w ++ [pasted_object h w position rotation])
          (collection_objects w ++ [ref])
          (Some ref)
          (reports w ++ [(INFO, message)])
          (attr_log w ++ [(ref, AttrEmptyDisplayType); (ref, AttrData);
                          (ref, AttrLocation); (ref, AttrRotationEuler);
                          (ref, AttrScale)])
          (classes w) (view3d_mt_add w).


(** The host calls up to [image.save] do their work and the clipboard
    holds [image]. *)
Definition saves (h : Host) (image : pil_image) : Prop :=
  raises h ImportPIL = None /\ raises h GrabClipboard = None /\
  raises h GetTempDir = None /\ raises h ImageSave = None /\
  clipboard h = ClipImage image.


(** The same context with another scene camera, another 3D cursor. *)
Definition with_camera (context : Context) (cam : option Camera) : Context :=
  mkContext (mkScene cam (cursor_location (scene context)))
            (screen_areas context).

Definition with_cursor (context : Context) (cursor : Vector) : Context :=
  mkContext (mkScene (camera (scene context)) cursor) (screen_areas context).

(** The same context with other screen areas. *)
Definition with_areas (context : Context) (areas : list Area) : Context :=
  mkContext (scene context) areas.

(** A run in which no host call raises and the clipboard holds an image;
    the only matrix inverted in the examples is the identity. *)
Definition identity_matrix : Matrix4 :=
  mkMatrix4 (mkVector4 1 0 0 0) (mkVector4 0 1 0 0)
            (mkVector4 0 0 1 0) (mkVector4 0 0 0 1).

Definition screenshot : pil_image := mkPilImage "BMP" "pixels".

Definition quiet_host : Host :=
  mkHost (fun _ => None) (ClipImage screenshot) "/tmp"
         (fun a b => a +:+ "/" +:+ b) (fun path => path)
         (fun _ => Some identity_matrix) (fun _ => zero_vector).

(** The same run with a photograph decoded from another format. *)
Definition photo : pil_image := mkPilImage "JPEG" "other pixels".

Definition photo_host : Host :=
  mkHost (fun _ => None) (ClipImage photo) "/tmp"
         (fun a b => a +:+ "/" +:+ b) (fun path => path)
         (fun _ => Some identity_matrix) (fun _ => zero_vector).

(** [KeyboardInterrupt()], and the same run interrupted in
    [grabclipboard], respectively in [image.save]. *)
Definition keyboard_interrupt : py_exception := mkRaised BaseExceptionKind "".

Definition interrupted_host : Host :=
  mkHost (fun c => match c with
                   | GrabClipboard => Some keyboard_interrupt
                   | _ => None
                   end)
         (ClipImage screenshot) "/tmp"
         (fun a b => a +:+ "/" +:+ b) (fun path => path)
         (fun _ => Some identity_matrix) (fun _ => zero_vector).


(** The same run with file names on the clipboard, with Pillow missing,
    and with a full disk. *)
Definition files_host : Host :=
  mkHost (fun _ => None) (ClipFiles ["/home/user/reference.png"]) "/tmp"
         (fun a b => a +:+ "/" +:+ b) (fun path => path)
         (fun _ => Some identity_matrix) (fun _ => zero_vector).

Definition no_pillow_host : Host :=
  mkHost (fun c => match c with
                   | ImportPIL => Some (mkException true "No module named 'PIL'")
                   | _ => None
                   end)
         ClipNone "/tmp" (fun a b => a +:+ "/" +:+ b) (fun path => path)
         (fun _ => Some identity_matrix) (fun _ => zero_vector).

Definition disk_full_host : Host :=
  mkHost (fun c => match c with
                   | ImageSave =>
                       Some (mkException false "[Errno 28] No space left on device")
                   | _ => None
                   end)
         (ClipImage screenshot) "/tmp"
         (fun a b => a +:+ "/" +:+ b) (fun path => path)
         (fun _ => Some identity_matrix) (fun _ => zero_vector).

(** A screen with one 3D view, a scene with the standard camera and the
    cursor at (1, 2, 3), and a world with nothing in it. *)
Definition viewport_context : Context :=
  mkContext (mkScene (Some (mkCamera identity_camera)) (mkVector 1 2 3))
            [mkArea "VIEW_3D" [mkRegion "HEADER"; mkRegion "WINDOW"]
                    [mkSpace identity_matrix]].


Definition empty_world : World := mkWorld ∅ [] [] [] None [] [] [] [].

End Scenarios.

(** ** The rest of the add-on: preferences, polling, unregistration *)

Module Lifecycle.

Import Mathutils Bpy Addon Scenarios.

Local Open Scope host_scope.

(** *** [ensure_pillow] (lines 32-37) *)

(** [import PIL] is a statement of its own, so what it does is an input:
    [import_statement].  Only [ImportError] is caught; any other exception
    leaves the function. *)
Definition ensure_pillow (import_statement : M unit) : M bool :=
  try_except (run import_statement; ret true)
             (fun e => if exc_is_import_error e then ret false else raise e).

(** *** [PasterefPreferences.draw] (lines 219-223) *)

(** What [layout.operator] and [layout.label] add to a layout. *)
Inductive layout_item : Type :=
| LayoutOperator (idname text : string)
| LayoutLabel (text icon : string).

(** [InstallPillowOperator.bl_idname] (line 19). *)
Definition InstallPillowOperator_bl_idname : string :=
  "preferences.install_pillow".

(** The answer is what [draw] has added to [self.layout], in order. *)
Definition PasterefPreferences_draw (import_statement : M unit)
  : M (list layout_item) :=
  do available <- ensure_pillow import_statement;
  if negb available then
    ret [LayoutOperator InstallPillowOperator_bl_idname "Install Pillow";
         LayoutLabel "Please restart Blender after installation." "INFO"]
  else ret [].

(** *** [poll] of both paste operators (lines 115-117 and 167-169) *)

(** The argument is [context.area]. *)
Definition poll (area : Area) : bool :=
  String.eqb (area_type area) "VIEW_3D".

(** *** [unregister] (lines 236-241) *)

#[global] Instance addon_class_eq_dec : EqDecision addon_class.
Proof. solve_decision. Defined.

(** [list.remove(x)] without the error for a missing element: the first
    occurrence goes. *)
Fixpoint remove_first {A : Type} `{EqDecision A} (x : A) (l : list A)
  : list A :=
  match l with
  | [] => []
  | y :: rest => if decide (y = x) then rest else y :: remove_first x rest
  end.

(** The answers of the host while the add-on is unloaded:
    [unregister_raises c = Some e] says that [unregister_class(c)] raises
    [e]. *)
Record Unloading : Type :=
  mkUnloading { unregister_raises : addon_class -> option py_exception }.

(** [bpy.utils.unregister_class(c)] *)
Definition unregister_class (u : Unloading) (c : addon_class) : M unit :=
  fun w => match unregister_raises u c with
           | Some e => (Raise e, w)
           | None =>
               (Return tt,
                mkWorld (files w) (images w) (objects w)
                        (collection_objects w) (active_object w) (reports w)
                        (attr_log w) (remove_first c (classes w))
                        (view3d_mt_add w))
           end.

(** [bpy.types.VIEW3D_MT_add.remove(f)]: the host drops the first such
    entry and ignores a missing one. *)
Definition menu_remove (f : list addon_class) : M unit :=
  fun w => (Return tt,
            mkWorld (files w) (images w) (objects w) (collection_objects w)
                    (active_object w) (reports w) (attr_log w) (classes w)
                    (remove_first f (view3d_mt_add w))).

Definition unregister (u : Unloading) : M unit :=
  run unregister_class u InstallPillowOperator;
  run unregister_class u PastePureRefImageOperator;
  run unregister_class u PastePureRefFromCursorOperator;
  run unregister_class u PasterefPreferences;
  menu_remove menu_func.

(** *** Vocabulary *)

(** The classes [register] registers, in its order. *)
Definition addon_classes : list addon_class :=
  [InstallPillowOperator; PastePureRefImageOperator;
   PastePureRefFromCursorOperator; PasterefPreferences].

(** An area that the loops of [get_viewport_facing_position] stop at: a 3D
    view with a window region. *)
Definition is_window (region : Region) : bool :=
  String.eqb (region_type region) "WINDOW".

Definition window_view (area : Area) : bool :=
  poll area && existsb is_window (regions area).

(** The host calls of the [try] block of a paste operator, in program
    order, and those up to [bpy.data.objects.new]. *)
Definition creation_calls : list host_call :=
  [ImportPIL; GrabClipboard; GetTempDir; ImageSave; ImagesLoad; ObjectsNew].

Definition paste_calls : list host_call :=
  creation_calls ++
  [SetAttr AttrEmptyDisplayType; SetAttr AttrData; SetAttr AttrLocation;
   SetAttr AttrRotationEuler; SetAttr AttrScale;
   ObjectsLink; SetActive; SelectSet].

(** The same world with one more report. *)
Definition reported (level : report_level) (message : string) (w : World)
  : World :=
  snd (report level message w).

(** References inside a world point at what exists: linked and active
    objects are objects, no object is linked twice, and the image of an
    object is an image data-block. *)
Definition well_formed (w : World) : Prop :=
  Forall (fun ref => ref < length (objects w)) (collection_objects w) /\
  NoDup (collection_objects w) /\
  (forall ref, active_object w = Some ref -> ref < length (objects w)) /\
  Forall (fun o => forall img, data o = Some img -> img < length (images w))
         (objects w).

(** The three host calls of [InstallPillowOperator.execute]. *)
Definition install_calls : list host_call :=
  [ImportEnsurepip; EnsurepipBootstrap; PipInstall].

(** A host whose unloading calls all do their work. *)
Definition quiet_unloading : Unloading := mkUnloading (fun _ => None).

End Lifecycle.

(** ** More vocabulary and inputs *)

Module Inputs.

Import Mathutils Bpy Addon Scenarios Lifecycle.

Local Open Scope R_scope.

(** The matrix with no entry but zero. *)
Definition zero_matrix : Matrix3 :=
  mkMatrix3 zero_vector zero_vector zero_vector.

(** What lines 90-104 answer for an area, by cases: no space, a view
    matrix without inverse, or the inverse [view] of the view matrix. *)
Definition viewport_answer (h : Host) (area : Area) (distance : R)
  : result (Vector * Vector) :=
  match spaces area with
  | [] =>
      Raise (mkException false
               "bpy_prop_collection[index]: index 0 out of range, size 0")
  | space :: _ =>
      match inverted h (view_matrix space) with
      | None =>
          Raise (mkException false
                   "Matrix.invert(ed): matrix does not have an inverse")
      | Some view =>
          let forward :=
            normalized (mat_vec (to_3x3 view) (mkVector 0 0 (-1))) in
          Return (vadd (translation view) (vscale forward distance),
                  to_euler h (to_3x3 view))
      end
  end.

(** The texts of lines 150 and 205. *)
Definition image_pasted_message : string :=
  "Image pasted from clipboard and positioned in front of viewport".

Definition cursor_pasted_message : string :=
  "Image pasted from clipboard at cursor position facing user".

(** A screen without a usable 3D view: an image editor, and a 3D view that
    has no window region. *)
Definition image_editor : Area :=
  mkArea "IMAGE_EDITOR" [mkRegion "WINDOW"] [mkSpace identity_matrix].

Definition bare_view : Area := mkArea "VIEW_3D" [mkRegion "HEADER"] [].

Definition editor_context : Context :=
  mkContext (mkScene None (mkVector 1 2 3)) [image_editor; bare_view].

(** A screen with two 3D views behind an image editor; the first has no
    space. *)
Definition empty_view : Area := mkArea "VIEW_3D" [mkRegion "WINDOW"] [].

Definition full_view : Area :=
  mkArea "VIEW_3D" [mkRegion "WINDOW"] [mkSpace identity_matrix].

Definition two_view_context : Context :=
  mkContext (mkScene None (mkVector 1 2 3))
            [image_editor; empty_view; full_view].

(** A run in which [link] raises, and an unloading in which the second
    paste operator cannot be unregistered. *)
Definition link_fails_host : Host :=
  mkHost (fun c => match c with
                   | ObjectsLink =>
                       Some (mkException false "collection is read-only")
                   | _ => None
                   end)
         (ClipImage screenshot) "/tmp"
         (fun a b => a +:+ "/" +:+ b) (fun path => path)
         (fun _ => Some identity_matrix) (fun _ => zero_vector).

Definition stuck_unloading : Unloading :=
  mkUnloading (fun c => match c with
                        | PastePureRefFromCursorOperator =>
                            Some (mkException false "not registered")
                        | _ => None
                        end).

End Inputs.

(** ** Facts about vectors and matrices *)

Module MathutilsFacts.

Import Mathutils.

Local Open Scope R_scope.

Lemma vector_eq (a b : Vector) :
  vx a = vx b -> vy a = vy b -> vz a = vz b -> a = b.
Proof.
  destruct a, b; simpl; intros -> -> ->; reflexivity.
Qed.

Lemma dot_self_nonneg (v : Vector) : 0 <= dot v v.
Proof. unfold dot; nra. Qed.

Lemma dot_self_zero (v : Vector) : dot v v = 0 -> v = zero_vector.
Proof.
  unfold dot; intros H.
  apply vector_eq; simpl; nra.
Qed.

Lemma dot_self_nonzero (v : Vector) : v <> zero_vector -> dot v v <> 0.
Proof. intros Hv H; apply Hv, dot_self_zero, H. Qed.

Lemma dot_comm (a b : Vector) : dot a b = dot b a.
Proof. unfold dot; ring. Qed.

Lemma dot_vscale_l (a b : Vector) (s : R) : dot (vscale a s) b = s * dot a b.
Proof. unfold dot, vscale; simpl; ring. Qed.

Lemma dot_vscale_r (a b : Vector) (s : R) : dot a (vscale b s) = s * dot a b.
Proof. unfold dot, vscale; simpl; ring. Qed.

Lemma dot_vneg_r (a b : Vector) : dot a (vneg b) = - dot a b.
Proof. unfold dot, vneg; simpl; ring. Qed.

Lemma dot_vneg_vneg (a : Vector) : dot (vneg a) (vneg a) = dot a a.
Proof. unfold dot, vneg; simpl; ring. Qed.

Lemma dot_cross_l (a b : Vector) : dot (cross a b) a = 0.
Proof. unfold dot, cross; simpl; ring. Qed.

Lemma dot_cross_r (a b : Vector) : dot (cross a b) b = 0.
Proof. unfold dot, cross; simpl; ring. Qed.

(** Lagrange's identity. *)
Lemma dot_cross_cross (a b : Vector) :
  dot (cross a b) (cross a b) = dot a a * dot b b - dot a b * dot a b.
Proof. unfold dot, cross; simpl; ring. Qed.

Lemma cross_cross_l (a b : Vector) :
  cross (cross a b) b = vsub (vscale b (dot a b)) (vscale a (dot b b)).
Proof. apply vector_eq; unfold dot, cross, vsub, vscale; simpl; ring. Qed.

Lemma magnitude_sqr (v : Vector) : magnitude v * magnitude v = dot v v.
Proof. unfold magnitude; apply sqrt_sqrt, dot_self_nonneg. Qed.

Lemma magnitude_nonzero (v : Vector) : dot v v <> 0 -> magnitude v <> 0.
Proof.
  intros Hv H; apply Hv.
  rewrite <- magnitude_sqr, H; ring.
Qed.

Lemma normalized_zero (v : Vector) : dot v v = 0 -> normalized v = zero_vector.
Proof.
  intros H; unfold normalized.
  destruct (Req_dec_T (dot v v) 0) as [_ | Hne]; [reflexivity | contradiction].
Qed.

Lemma normalized_nonzero (v : Vector) :
  dot v v <> 0 -> normalized v = vscale v (/ magnitude v).
Proof.
  intros H; unfold normalized.
  destruct (Req_dec_T (dot v v) 0) as [He | _]; [contradiction | reflexivity].
Qed.

(** A vector that is not zero is normalized to a unit vector. *)
Lemma normalized_unit (v : Vector) :
  dot v v <> 0 -> dot (normalized v) (normalized v) = 1.
Proof.
  intros H.
  rewrite normalized_nonzero by assumption.
  rewrite dot_vscale_l, dot_vscale_r, <- magnitude_sqr.
  field. apply magnitude_nonzero, H.
Qed.

(** The length of a unit vector is one, so normalizing leaves it as it is. *)
Lemma normalized_of_unit (v : Vector) : dot v v = 1 -> normalized v = v.
Proof.
  intros H.
  rewrite normalized_nonzero by (rewrite H; lra).
  unfold magnitude; rewrite H, sqrt_1.
  apply vector_eq; simpl; field.
Qed.

(** Normalizing keeps a vector orthogonal to what it was orthogonal to. *)
Lemma dot_normalized_zero (v w : Vector) :
  dot v w = 0 -> dot (normalized v) w = 0.
Proof.
  intros H; unfold normalized.
  destruct (Req_dec_T (dot v v) 0) as [_ | _].
  - unfold dot, zero_vector; simpl; ring.
  - rewrite dot_vscale_l, H; ring.
Qed.

(** A vector is its normalized vector times its length. *)
Lemma vscale_normalized (v : Vector) :
  vscale (normalized v) (magnitude v) = v.
Proof.
  destruct (Req_dec_T (dot v v) 0) as [He | Hne].
  - rewrite normalized_zero by assumption.
    rewrite (dot_self_zero v He).
    apply vector_eq; simpl; ring.
  - rewrite normalized_nonzero by assumption.
    apply vector_eq; simpl; field; apply magnitude_nonzero, Hne.
Qed.

Lemma magnitude_vscale (v : Vector) (s : R) :
  dot v v = 1 -> magnitude (vscale v s) = Rabs s.
Proof.
  intros H; unfold magnitude.
  rewrite dot_vscale_l, dot_vscale_r, H.
  replace (s * (s * 1)) with (Rsqr s) by (unfold Rsqr; ring).
  apply sqrt_Rsqr_abs.
Qed.

Lemma transposed_involutive (m : Matrix3) : transposed (transposed m) = m.
Proof. destruct m as [[] [] []]; reflexivity. Qed.

Lemma determinant_transposed (m : Matrix3) :
  determinant (transposed m) = determinant m.
Proof. unfold determinant, transposed, dot, cross; simpl; ring. Qed.

(** The matrix whose columns are [a], [b], [c] is orthonormal exactly when
    the three vectors are pairwise orthogonal unit vectors. *)
Lemma orthonormal_columns (a b c : Vector) :
  orthonormal (transposed (mkMatrix3 a b c)) <->
  dot a a = 1 /\ dot b b = 1 /\ dot c c = 1 /\
  dot a b = 0 /\ dot a c = 0 /\ dot b c = 0.
Proof.
  unfold orthonormal.
  rewrite transposed_involutive.
  unfold mat_mul, mat_vec, identity3.
  rewrite transposed_involutive; simpl.
  split.
  - intros H; injection H as H1 H2 H3 H4 H5 H6 H7 H8 H9.
    repeat split; assumption.
  - intros (Ha & Hb & Hc & Hab & Hac & Hbc).
    rewrite (dot_comm b a), (dot_comm c a), (dot_comm c b).
    rewrite Ha, Hb, Hc, Hab, Hac, Hbc; reflexivity.
Qed.

Lemma col2_transposed (a b c : Vector) :
  col2 (transposed (mkMatrix3 a b c)) = c.
Proof. apply vector_eq; unfold col2, mat_vec, dot; simpl; ring. Qed.

End MathutilsFacts.

(** ** [get_camera_facing_position] *)

Module CameraFacing.

Import Mathutils Bpy Addon Scenarios MathutilsFacts.

Local Open Scope R_scope.

Lemma camera_forward_unit (camera_matrix : Matrix4) :
  forward_vector camera_matrix <> zero_vector ->
  dot (camera_forward camera_matrix) (camera_forward camera_matrix) = 1.
Proof.
  intros H; unfold camera_forward.
  apply normalized_unit, dot_self_nonzero, H.
Qed.

(** From the position back to the camera: [forward] times [- distance]. *)
Lemma camera_location_minus_position (camera_matrix : Matrix4) (distance : R) :
  vsub (translation camera_matrix) (camera_position camera_matrix distance)
  = vscale (camera_forward camera_matrix) (- distance).
Proof.
  unfold camera_position; apply vector_eq; simpl; ring.
Qed.

Lemma position_minus_camera_location (camera_matrix : Matrix4) (distance : R) :
  vsub (camera_position camera_matrix distance) (translation camera_matrix)
  = vscale (camera_forward camera_matrix) distance.
Proof.
  unfold camera_position; apply vector_eq; simpl; ring.
Qed.

(** [direction] is the unit vector that points from the position to the
    camera, which is [|distance|] away. *)
Lemma camera_direction_unit (camera_matrix : Matrix4) (distance : R) :
  forward_vector camera_matrix <> zero_vector ->
  distance <> 0 ->
  dot (camera_direction camera_matrix distance)
      (camera_direction camera_matrix distance) = 1.
Proof.
  intros Hf Hd; unfold camera_direction; cbv zeta.
  apply normalized_unit.
  rewrite camera_location_minus_position.
  rewrite dot_vscale_l, dot_vscale_r, camera_forward_unit by assumption.
  nra.
Qed.

Lemma camera_direction_points_to_camera (camera_matrix : Matrix4) (distance : R) :
  forward_vector camera_matrix <> zero_vector ->
  vsub (translation camera_matrix) (camera_position camera_matrix distance)
  = vscale (camera_direction camera_matrix distance) (Rabs distance).
Proof.
  intros Hf; unfold camera_direction; cbv zeta.
  set (u := vsub _ _).
  rewrite <- (vscale_normalized u) at 1.
  f_equal. unfold u.
  rewrite camera_location_minus_position, magnitude_vscale.
  - apply Rabs_Ropp.
  - apply camera_forward_unit, Hf.
Qed.

(** The branch of line 64, for a unit [direction] away from the Z axis. *)
Lemma regular_basis (direction : Vector) :
  dot direction direction = 1 ->
  Rabs (vz direction) < 999 / 1000 ->
  let right := normalized (cross direction (mkVector 0 0 1)) in
  let up := normalized (cross right direction) in
  dot right right = 1 /\ dot up up = 1 /\ dot right up = 0 /\
  dot right direction = 0 /\ dot up direction = 0 /\
  up = cross right direction.
Proof.
  intros Hd Hz right up.
  assert (Hrr : dot right right = 1).
  { apply normalized_unit.
    apply Rabs_def2 in Hz.
    unfold dot in Hd; unfold dot, cross; simpl; nra. }
  assert (Hrd : dot right direction = 0).
  { apply dot_normalized_zero, dot_cross_l. }
  assert (Hcc : dot (cross right direction) (cross right direction) = 1).
  { rewrite dot_cross_cross, Hrr, Hd, Hrd; ring. }
  assert (Hup : up = cross right direction).
  { apply normalized_of_unit, Hcc. }
  repeat split; try assumption.
  - rewrite Hup; exact Hcc.
  - rewrite Hup, dot_comm; apply dot_cross_l.
  - rewrite Hup; apply dot_cross_r.
Qed.

Lemma camera_rotation_matrix_regular (camera_matrix : Matrix4) (distance : R) :
  let direction := camera_direction camera_matrix distance in
  Rabs (vz direction) < 999 / 1000 ->
  camera_rotation_matrix camera_matrix distance
  = let right := normalized (cross direction (mkVector 0 0 1)) in
    let up := normalized (cross right direction) in
    transposed (mkMatrix3 right up (vneg direction)).
Proof.
  intros direction Hz; unfold camera_rotation_matrix; cbv zeta.
  fold direction.
  destruct (Rlt_dec (Rabs (vz direction)) (999 / 1000)); [reflexivity | contradiction].
Qed.

Lemma camera_rotation_matrix_degenerate (camera_matrix : Matrix4) (distance : R) :
  let direction := camera_direction camera_matrix distance in
  ~ Rabs (vz direction) < 999 / 1000 ->
  camera_rotation_matrix camera_matrix distance
  = transposed (mkMatrix3 (mkVector 1 0 0) (mkVector 0 1 0) (vneg direction)).
Proof.
  intros direction Hz; unfold camera_rotation_matrix; cbv zeta.
  fold direction.
  destruct (Rlt_dec (Rabs (vz direction)) (999 / 1000)); [contradiction | reflexivity].
Qed.

(** In the regular branch the matrix is a rotation. *)
Lemma regular_branch_rotation (direction : Vector) :
  dot direction direction = 1 ->
  Rabs (vz direction) < 999 / 1000 ->
  let right := normalized (cross direction (mkVector 0 0 1)) in
  let up := normalized (cross right direction) in
  let m := transposed (mkMatrix3 right up (vneg direction)) in
  orthonormal m /\ determinant m = 1.
Proof.
  intros Hd Hz.
  pose proof (regular_basis direction Hd Hz) as H.
  cbv zeta in H |- *.
  set (right := normalized (cross direction _)) in *.
  set (up := normalized (cross right direction)) in *.
  destruct H as (Hrr & Huu & Hru & Hrd & Hud & Hup).
  split.
  - apply orthonormal_columns.
    rewrite dot_vneg_vneg, !dot_vneg_r, Hrd, Hud.
    repeat split; try assumption; ring.
  - rewrite determinant_transposed.
    unfold determinant; simpl.
    assert (Hc : cross up (vneg direction) = right).
    { rewrite Hup.
      transitivity (vneg (cross (cross right direction) direction)).
      - apply vector_eq; unfold cross, vneg; simpl; ring.
      - rewrite cross_cross_l, Hrd, Hd.
        apply vector_eq; simpl; ring. }
    rewrite Hc; exact Hrr.
Qed.

(** In the other branch the matrix is orthonormal only for a [direction]
    that is exactly along the Z axis. *)
Lemma degenerate_branch_orthonormal (direction : Vector) :
  dot direction direction = 1 ->
  orthonormal
    (transposed (mkMatrix3 (mkVector 1 0 0) (mkVector 0 1 0) (vneg direction)))
  <-> vx direction = 0 /\ vy direction = 0.
Proof.
  intros Hd.
  rewrite orthonormal_columns, dot_vneg_vneg, !dot_vneg_r.
  unfold dot; simpl.
  split.
  - intros (_ & _ & _ & _ & Hx & Hy); split; lra.
  - intros (Hx & Hy); unfold dot in Hd.
    repeat split; try lra.
Qed.

Lemma tilted_camera_forward :
  forward_vector tilted_camera = mkVector (- 45 / 1013) 0 (- 1012 / 1013).
Proof.
  apply vector_eq; unfold forward_vector, mat_vec, dot; simpl; field.
Qed.

Lemma tilted_camera_forward_nonzero : forward_vector tilted_camera <> zero_vector.
Proof.
  rewrite tilted_camera_forward; intros H.
  apply (f_equal vx) in H; simpl in H; lra.
Qed.

Lemma tilted_camera_direction :
  camera_direction tilted_camera 5 = mkVector (45 / 1013) 0 (1012 / 1013).
Proof.
  pose proof (camera_direction_points_to_camera tilted_camera 5
                tilted_camera_forward_nonzero) as H.
  rewrite camera_location_minus_position in H.
  unfold camera_forward in H; fold (forward_vector tilted_camera) in H.
  rewrite tilted_camera_forward in H.
  rewrite normalized_of_unit in H by (unfold dot; simpl; field).
  rewrite Rabs_pos_eq in H by lra.
  apply vector_eq;
    [apply (f_equal vx) in H | apply (f_equal vy) in H | apply (f_equal vz) in H];
    simpl in H |- *; lra.
Qed.

Lemma identity_camera_forward_nonzero :
  forward_vector identity_camera <> zero_vector.
Proof.
  intros H; apply (f_equal vz) in H.
  unfold forward_vector, mat_vec, dot in H; simpl in H; lra.
Qed.

Lemma flat_camera_forward : forward_vector flat_camera = zero_vector.
Proof.
  apply vector_eq; unfold forward_vector, mat_vec, dot; simpl; ring.
Qed.

(** C1.  For the tilted camera the branch of lines 68-70 is taken, and the
    matrix built in lines 72-76 is not orthonormal: its columns (1, 0, 0)
    and [- direction] are not orthogonal. *)
Lemma tilted_camera_not_orthonormal :
  ~ Rabs (vz (camera_direction tilted_camera 5)) < 999 / 1000 /\
  ~ orthonormal (camera_rotation_matrix tilted_camera 5).
Proof.
  assert (Hz : ~ Rabs (vz (camera_direction tilted_camera 5)) < 999 / 1000).
  { rewrite tilted_camera_direction; simpl.
    rewrite Rabs_pos_eq by lra. lra. }
  split; [exact Hz |].
  rewrite camera_rotation_matrix_degenerate by exact Hz.
  rewrite degenerate_branch_orthonormal.
  - rewrite tilted_camera_direction; simpl. lra.
  - rewrite tilted_camera_direction; unfold dot; simpl; field.
Qed.




End CameraFacing.

(** ** The operators *)

Module Operators.

Import Mathutils Bpy Addon Scenarios.

(** *** Running an operator symbolically *)

Lemma alter_appended {A : Type} (f : A -> A) (l : list A) (x : A) :
  alter f (length l) (l ++ [x]) = l ++ [f x].
Proof.
  rewrite <- (Nat.add_0_r (length l)), alter_app_r; reflexivity.
Qed.

Lemma lookup_appended {A : Type} (l : list A) (x : A) :
  (l ++ [x]) !! length l = Some x.
Proof. apply list_lookup_middle; reflexivity. Qed.


Lemma report_differs (l : list (report_level * string))
    (level : report_level) (text message : string) :
  level <> INFO -> l ++ [(level, text)] = l ++ [(INFO, message)] -> False.
Proof.
  intros Hl H; apply app_inv_head in H.
  injection H as H _; exact (Hl H).
Qed.

Lemma report_missing (l : list (report_level * string))
    (level : report_level) (message : string) :
  l = l ++ [(level, message)] -> False.
Proof.
  intros H; apply (f_equal length) in H.
  rewrite length_app in H; simpl in H; lia.
Qed.

Lemma import_error_is_exception (e : py_exception) :
  exc_is_import_error e = true -> exc_is_exception e = true.
Proof.
  unfold exc_is_import_error, exc_is_exception.
  destruct (exc_kind e); [reflexivity | discriminate | discriminate].
Qed.

(** Case analysis on the answer of the next host call. *)
Ltac step :=
  match goal with
  | |- context [raises ?h ?c] => destruct (raises h c) eqn:?; simpl
  end.

Ltac unfold_host :=
  unfold try_except, bind, import_PIL, grabclipboard, gettempdir, image_save,
         images_load, image_name_of, objects_new, set_attr, objects_link,
         set_active, select_set, register_class, menu_append, call, ret, lift,
         paste_handler, install_handler, raise, report.

(** Case analysis on the kind of the exception that reaches the [except]
    clauses. *)
Ltac handled :=
  try (match goal with
       | |- context [exc_is_import_error ?e] =>
           unfold exc_is_import_error, exc_is_exception;
           destruct (exc_kind e) eqn:?; simpl
       | |- context [exc_is_exception ?e] =>
           unfold exc_is_import_error, exc_is_exception;
           destruct (exc_kind e) eqn:?; simpl
       end).

(** All the ways a paste operator can run: one goal for each host call that
    raises, for each kind of clipboard content and for each answer of
    [get_viewport_facing_position]. *)
Ltac run_paste :=
  unfold PastePureRefImageOperator_execute, PastePureRefImageOperator_try,
         PastePureRefFromCursorOperator_execute,
         PastePureRefFromCursorOperator_try;
  unfold_host;
  repeat step;
  try (match goal with
       | |- context [clipboard ?h] => destruct (clipboard h) eqn:?; simpl
       end);
  try (match goal with
       | |- context [get_viewport_facing_position ?h ?c ?d] =>
           destruct (get_viewport_facing_position h c d)
             as [[? ?] | ?] eqn:?; simpl
       end);
  handled;
  rewrite ?alter_appended, ?lookup_appended; simpl;
  rewrite <- ?app_assoc; simpl.

(** A goal that assumes a paste although the last report is not [INFO], or
    although there is no report. *)
Ltac not_pasted :=
  let H := fresh in
  intros [? H]; exfalso; simpl in H;
  first [ apply report_differs in H; [exact H | discriminate]
        | apply report_missing in H; exact H ].

(** *** What a completed paste leaves behind *)

Lemma PastePureRefImageOperator_pasted (h : Host) (context : Context) (w : World) :
  let w' := snd (PastePureRefImageOperator_execute h context w) in
  pasted w w' ->
  exists image position rotation,
    raises h GrabClipboard = None /\
    clipboard h = ClipImage image /\
    get_viewport_facing_position h context 5 = Return (position, rotation) /\
    w' = pasted_world h
           "Image pasted from clipboard and positioned in front of viewport"
           image position rotation w.
Proof.
  cbv zeta; run_paste; try not_pasted.
  intros _; eexists _, _, _.
  repeat split; reflexivity.
Qed.

Lemma PastePureRefFromCursorOperator_pasted
    (h : Host) (context : Context) (w : World) :
  let w' := snd (PastePureRefFromCursorOperator_execute h context w) in
  pasted w w' ->
  exists image position rotation,
    raises h GrabClipboard = None /\
    clipboard h = ClipImage image /\
    get_viewport_facing_position h context 0 = Return (position, rotation) /\
    w' = pasted_world h
           "Image pasted from clipboard at cursor position facing user"
           image (cursor_location (scene context)) rotation w.
Proof.
  cbv zeta; run_paste; try not_pasted.
  intros _; eexists _, _, _.
  repeat split; reflexivity.
Qed.

(** *** What every run keeps: objects and images that were there *)







(** *** The temporary file *)

Lemma PastePureRefImageOperator_saves
    (h : Host) (context : Context) (w : World) (image : pil_image) :
  saves h image ->
  files (snd (PastePureRefImageOperator_execute h context w))
  = <[temp_path h := image]> (files w).
Proof.
  unfold saves; run_paste;
    intros (? & ? & ? & ? & Hc); try discriminate;
    injection Hc as <-; reflexivity.
Qed.

Lemma PastePureRefFromCursorOperator_saves
    (h : Host) (context : Context) (w : World) (image : pil_image) :
  saves h image ->
  files (snd (PastePureRefFromCursorOperator_execute h context w))
  = <[temp_path h := image]> (files w).
Proof.
  unfold saves; run_paste;
    intros (? & ? & ? & ? & Hc); try discriminate;
    injection Hc as <-; reflexivity.
Qed.

(** *** Where a new object comes from *)

Ltac grown :=
  let H := fresh in
  intros H; simpl in H;
  first [ exfalso; rewrite ?length_app in H; simpl in H; lia
        | eexists; repeat split; try reflexivity;
          let o := fresh in let Ho := fresh in
          intros o Ho; rewrite ?lookup_appended in Ho;
          injection Ho as <-; simpl; auto ].

Lemma PastePureRefImageOperator_grows (h : Host) (context : Context) (w : World) :
  let w' := snd (PastePureRefImageOperator_execute h context w) in
  length (objects w) < length (objects w') ->
  exists image,
    clipboard h = ClipImage image /\
    files w' = <[temp_path h := image]> (files w) /\
    images w' = images w ++ [mkImage (basename h (temp_path h)) (temp_path h)] /\
    forall o, objects w' !! length (objects w) = Some o ->
              data o = None \/ data o = Some (length (images w)).
Proof. cbv zeta; run_paste; grown. Qed.

Lemma PastePureRefFromCursorOperator_grows
    (h : Host) (context : Context) (w : World) :
  let w' := snd (PastePureRefFromCursorOperator_execute h context w) in
  length (objects w) < length (objects w') ->
  exists image,
    clipboard h = ClipImage image /\
    files w' = <[temp_path h := image]> (files w) /\
    images w' = images w ++ [mkImage (basename h (temp_path h)) (temp_path h)] /\
    forall o, objects w' !! length (objects w) = Some o ->
              data o = None \/ data o = Some (length (images w)).
Proof. cbv zeta; run_paste; grown. Qed.

Lemma InstallPillowOperator_objects (h : Host) (context : Context) (w : World) :
  objects (snd (InstallPillowOperator_execute h context w)) = objects w.
Proof.
  unfold InstallPillowOperator_execute, InstallPillowOperator_try; unfold_host.
  repeat step; handled; reflexivity.
Qed.

Lemma menu_func_cases (c : addon_class) :
  In c menu_func ->
  c = PastePureRefImageOperator \/ c = PastePureRefFromCursorOperator.
Proof.
  simpl; intros [H | [H | []]]; auto.
Qed.


(** *** C7 *)











(** *** C4 *)



(** The three failures, run on a world with nothing in it. *)
Example pillow_missing_reported :
  reports (snd (PastePureRefImageOperator_execute no_pillow_host
                  viewport_context empty_world))
  = [(ERROR, pillow_missing)].
Proof. reflexivity. Qed.

Example no_image_reported :
  reports (snd (PastePureRefFromCursorOperator_execute files_host
                  viewport_context empty_world))
  = [(WARNING, "No image in clipboard")].
Proof. reflexivity. Qed.

Example other_exception_reported :
  reports (snd (PastePureRefImageOperator_execute disk_full_host
                  viewport_context empty_world))
  = [(ERROR, "[Errno 28] No space left on device")].
Proof. reflexivity. Qed.

(** *** C5 *)

(** C5.  After a paste by [PastePureRefFromCursorOperator] the new object
    sits exactly at the 3D cursor and has the rotation that
    [get_viewport_facing_position] answers; that rotation is the same for
    every cursor, and the cursor is the same for every set of screen
    areas. *)
Theorem cursor_paste_location_rotation
    (h : Host) (context : Context) (w : World) :
  let w' := snd (PastePureRefFromCursorOperator_execute h context w) in
  pasted w w' ->
  exists (position rotation : Vector) (ref : Object),
    get_viewport_facing_position h context 0 = Return (position, rotation) /\
    objects w' !! length (objects w) = Some ref /\
    location ref = cursor_location (scene context) /\
    rotation_euler ref = rotation /\
    (forall cursor : Vector,
       get_viewport_facing_position h (with_cursor context cursor) 0
       = get_viewport_facing_position h context 0) /\
    (forall areas : list Area,
       cursor_location (scene (with_areas context areas))
       = cursor_location (scene context)).
Proof.
  intros w' Hp.
  destruct (PastePureRefFromCursorOperator_pasted h context w Hp)
    as (image & position & rotation & _ & _ & Hv & Hw).
  fold w' in Hw.
  exists position, rotation,
    (pasted_object h w (cursor_location (scene context)) rotation).
  split; [exact Hv |].
  split; [rewrite Hw; apply lookup_appended |].
  repeat split; reflexivity.
Qed.

Lemma quiet_cursor_paste :
  pasted empty_world
    (snd (PastePureRefFromCursorOperator_execute quiet_host viewport_context
            empty_world)).
Proof. eexists; cbn; reflexivity. Defined.

Lemma quiet_image_paste :
  pasted empty_world
    (snd (PastePureRefImageOperator_execute quiet_host viewport_context
            empty_world)).
Proof. eexists; cbn; reflexivity. Defined.

Lemma cursor_paste_location_rotation_witness :
  exists (position rotation : Vector) (ref : Object),
    get_viewport_facing_position quiet_host viewport_context 0
      = Return (position, rotation) /\
    objects (snd (PastePureRefFromCursorOperator_execute quiet_host
                    viewport_context empty_world)) !! 0%nat = Some ref /\
    location ref = mkVector 1 2 3 /\
    rotation_euler ref = rotation.
Proof.
  destruct (cursor_paste_location_rotation quiet_host viewport_context
              empty_world quiet_cursor_paste)
    as (position & rotation & ref & Hv & Hl & Hloc & Hrot & _).
  exists position, rotation, ref; auto.
Defined.

(** *** C10 *)

(** C10.  After a paste by either operator the new object is displayed as
    an image, has scale (2, 2, 1), is linked into the collection of the
    context, is selected and is the active object of the view layer. *)
Theorem pasted_object_state (h : Host) (c : addon_class)
    (exec : Context -> M status) (context : Context) (w : World) :
  In c menu_func ->
  execute h c = Some exec ->
  let w' := snd (exec context w) in
  pasted w w' ->
  exists ref : Object,
    objects w' !! length (objects w) = Some ref /\
    empty_display_type ref = IMAGE /\
    scale ref = mkVector 2 2 1 /\
    length (objects w) ∈ collection_objects w' /\
    select ref = true /\
    active_object w' = Some (length (objects w)).
Proof.
  intros Hc Hexec w' Hp.
  assert (Hw : exists message image position rotation,
             w' = pasted_world h message image position rotation w).
  { destruct (menu_func_cases c Hc) as [-> | ->];
      injection Hexec as <-.
    - destruct (PastePureRefImageOperator_pasted h context w Hp)
        as (image & position & rotation & _ & _ & _ & Hw).
      eexists _, _, _, _; exact Hw.
    - destruct (PastePureRefFromCursorOperator_pasted h context w Hp)
        as (image & position & rotation & _ & _ & _ & Hw).
      eexists _, _, _, _; exact Hw. }
  destruct Hw as (message & image & position & rotation & ->).
  exists (pasted_object h w position rotation); simpl.
  split; [apply lookup_appended |].
  repeat split.
  apply elem_of_app; right; apply list_elem_of_singleton; reflexivity.
Qed.

Lemma pasted_object_state_witness :
  exists ref : Object,
    objects (snd (PastePureRefImageOperator_execute quiet_host
                    viewport_context empty_world)) !! 0%nat = Some ref /\
    empty_display_type ref = IMAGE /\
    scale ref = mkVector 2 2 1.
Proof.
  destruct (pasted_object_state quiet_host PastePureRefImageOperator
              (PastePureRefImageOperator_execute quiet_host)
              viewport_context empty_world
              (or_introl eq_refl) eq_refl quiet_image_paste)
    as (ref & Hl & Hd & Hs & _).
  exists ref; auto.
Defined.

(** *** C8 *)




(** *** C9 *)

Lemma paste_saves (h : Host) (c : addon_class) (exec : Context -> M status)
    (context : Context) (w : World) (image : pil_image) :
  In c menu_func ->
  execute h c = Some exec ->
  saves h image ->
  files (snd (exec context w)) = <[temp_path h := image]> (files w).
Proof.
  intros Hc Hexec Hs.
  destruct (menu_func_cases c Hc) as [-> | ->]; injection Hexec as <-.
  - apply PastePureRefImageOperator_saves, Hs.
  - apply PastePureRefFromCursorOperator_saves, Hs.
Qed.

(** C9.  Whenever a run of either paste operator gets as far as
    [image.save], the clipboard image is written to the temporary directory
    joined with "clipboard_image.png", whatever the image and its format;
    so of two pastes in a row, by whichever operators, the second replaces
    the file of the first. *)
Theorem pastes_share_temp_file (h1 h2 : Host) (c1 c2 : addon_class)
    (exec1 exec2 : Context -> M status) (context1 context2 : Context)
    (w : World) (image1 image2 : pil_image) :
  In c1 menu_func -> execute h1 c1 = Some exec1 -> saves h1 image1 ->
  In c2 menu_func -> execute h2 c2 = Some exec2 -> saves h2 image2 ->
  tempdir h2 = tempdir h1 -> path_join h2 = path_join h1 ->
  let path := path_join h1 (tempdir h1) "clipboard_image.png" in
  let w1 := snd (exec1 context1 w) in
  let w2 := snd (exec2 context2 w1) in
  files w1 = <[path := image1]> (files w) /\
  files w2 = <[path := image2]> (files w) /\
  files w2 !! path = Some image2.
Proof.
  intros Hc1 He1 Hs1 Hc2 He2 Hs2 Hdir Hjoin path w1 w2.
  assert (H1 : files w1 = <[path := image1]> (files w))
    by (apply (paste_saves h1 c1); assumption).
  assert (H2 : files w2 = <[path := image2]> (files w1)).
  { unfold w2; rewrite (paste_saves h2 c2 exec2 context2 w1 image2) by assumption.
    unfold temp_path; rewrite Hdir, Hjoin; reflexivity. }
  split; [exact H1 |].
  rewrite H2, H1, insert_insert_eq.
  split; [reflexivity | apply lookup_insert_eq].
Qed.

Lemma quiet_host_saves : saves quiet_host screenshot.
Proof. repeat split. Defined.

Lemma photo_host_saves : saves photo_host photo.
Proof. repeat split. Defined.

Lemma pastes_share_temp_file_witness :
  files (snd (PastePureRefFromCursorOperator_execute photo_host
                viewport_context
                (snd (PastePureRefImageOperator_execute quiet_host
                        viewport_context empty_world))))
    !! "/tmp/clipboard_image.png" = Some photo.
Proof.
  apply (pastes_share_temp_file quiet_host photo_host
           PastePureRefImageOperator PastePureRefFromCursorOperator
           (PastePureRefImageOperator_execute quiet_host)
           (PastePureRefFromCursorOperator_execute photo_host)
           viewport_context viewport_context empty_world screenshot photo
           (or_introl eq_refl) eq_refl quiet_host_saves
           (or_intror (or_introl eq_refl)) eq_refl photo_host_saves
           eq_refl eq_refl).
Defined.

(** *** C2 *)

(** C2 fails as stated: no run of a paste operator depends on the scene
    camera. *)
Lemma no_paste_reads_camera :
  ~ exists (h : Host) (c : addon_class) (exec : Context -> M status)
      (context : Context) (cam : option Camera) (w : World),
      In c menu_func /\ execute h c = Some exec /\
      exec (with_camera context cam) w <> exec context w.
Proof.
  intros (h & c & exec & context & cam & w & Hc & Hexec & Hne).
  apply Hne.
  destruct (menu_func_cases c Hc) as [-> | ->]; injection Hexec as <-;
    reflexivity.
Qed.

(** C2, as amended.  [PastePureRefImageOperator] places the new object at
    the position and rotation that [get_viewport_facing_position] answers
    for distance 5; [PastePureRefFromCursorOperator] places it at the 3D
    cursor with the rotation answered for distance 0; neither run changes
    when the scene camera is replaced or removed. *)
Theorem paste_positions_from_viewport
    (h : Host) (context : Context) (w : World) :
  (let w' := snd (PastePureRefImageOperator_execute h context w) in
   pasted w w' ->
   exists (position rotation : Vector) (ref : Object),
     get_viewport_facing_position h context 5 = Return (position, rotation) /\
     objects w' !! length (objects w) = Some ref /\
     location ref = position /\ rotation_euler ref = rotation) /\
  (let w' := snd (PastePureRefFromCursorOperator_execute h context w) in
   pasted w w' ->
   exists (position rotation : Vector) (ref : Object),
     get_viewport_facing_position h context 0 = Return (position, rotation) /\
     objects w' !! length (objects w) = Some ref /\
     location ref = cursor_location (scene context) /\
     rotation_euler ref = rotation) /\
  (forall (c : addon_class) (exec : Context -> M status) (cam : option Camera),
     In c menu_func -> execute h c = Some exec ->
     exec (with_camera context cam) w = exec context w).
Proof.
  split; [| split].
  - intros w' Hp.
    destruct (PastePureRefImageOperator_pasted h context w Hp)
      as (image & position & rotation & _ & _ & Hv & Hw).
    fold w' in Hw.
    exists position, rotation, (pasted_object h w position rotation).
    split; [exact Hv |].
    split; [rewrite Hw; apply lookup_appended |].
    split; reflexivity.
  - intros w' Hp.
    destruct (PastePureRefFromCursorOperator_pasted h context w Hp)
      as (image & position & rotation & _ & _ & Hv & Hw).
    fold w' in Hw.
    exists position, rotation,
      (pasted_object h w (cursor_location (scene context)) rotation).
    split; [exact Hv |].
    split; [rewrite Hw; apply lookup_appended |].
    split; reflexivity.
  - intros c exec cam Hc Hexec.
    destruct (menu_func_cases c Hc) as [-> | ->]; injection Hexec as <-;
      reflexivity.
Qed.

Lemma paste_positions_from_viewport_witness :
  exists (position rotation : Vector) (ref : Object),
    get_viewport_facing_position quiet_host viewport_context 5
      = Return (position, rotation) /\
    objects (snd (PastePureRefImageOperator_execute quiet_host
                    viewport_context empty_world)) !! 0%nat = Some ref /\
    location ref = position /\ rotation_euler ref = rotation.
Proof.
  exact (proj1 (paste_positions_from_viewport quiet_host viewport_context
                  empty_world) quiet_image_paste).
Defined.

(** *** C3 *)

(** What [register] leaves when no host call raises. *)
Lemma register_classes (h : Host) (w : World) :
  (forall c, raises h c = None) ->
  classes (snd (register h w))
  = classes w ++ [InstallPillowOperator; PastePureRefImageOperator;
                  PastePureRefFromCursorOperator; PasterefPreferences] /\
  view3d_mt_add (snd (register h w)) = view3d_mt_add w ++ [menu_func].
Proof.
  intros Hq; unfold register; unfold_host.
  rewrite !Hq; simpl.
  rewrite <- !app_assoc; split; reflexivity.
Qed.

(** C3 fails as stated: no [execute] of a class of the add-on creates an
    object in a run whose clipboard holds no image. *)
Lemma no_operator_pastes_files :
  ~ exists (h : Host) (c : addon_class) (exec : Context -> M status)
      (context : Context) (w : World),
      execute h c = Some exec /\
      (forall image, clipboard h <> ClipImage image) /\
      length (objects w) < length (objects (snd (exec context w))).
Proof.
  intros (h & c & exec & context & w & Hexec & Hclip & Hlt).
  destruct c; try discriminate Hexec; injection Hexec as <-.
  - rewrite InstallPillowOperator_objects in Hlt; lia.
  - destruct (PastePureRefImageOperator_grows h context w Hlt)
      as (image & Hc & _).
    exact (Hclip image Hc).
  - destruct (PastePureRefFromCursorOperator_grows h context w Hlt)
      as (image & Hc & _).
    exact (Hclip image Hc).
Qed.

(** File names on the clipboard are answered with the warning, and no
    object is created. *)
Example files_on_clipboard_not_pasted :
  PastePureRefImageOperator_execute files_host viewport_context empty_world
  = (Return FINISHED,
     mkWorld ∅ [] [] [] None [(WARNING, "No image in clipboard")] [] [] []).
Proof. reflexivity. Qed.

(** C3, as amended.  Whenever the [execute] of a class of the add-on
    creates an object, the clipboard held an image; that image is what was
    written to the temporary file, and the only image the new object can
    refer to is the data-block loaded from that file. *)
Theorem objects_come_from_clipboard (h : Host) (c : addon_class)
    (exec : Context -> M status) (context : Context) (w : World) :
  execute h c = Some exec ->
  let w' := snd (exec context w) in
  length (objects w) < length (objects w') ->
  exists image : pil_image,
    clipboard h = ClipImage image /\
    files w' = <[temp_path h := image]> (files w) /\
    images w' = images w ++ [mkImage (basename h (temp_path h)) (temp_path h)] /\
    forall o : Object,
      objects w' !! length (objects w) = Some o ->
      data o = None \/ data o = Some (length (images w)).
Proof.
  intros Hexec w' Hlt.
  destruct c; try discriminate Hexec; injection Hexec as <-.
  - unfold w' in Hlt; rewrite InstallPillowOperator_objects in Hlt; lia.
  - apply PastePureRefImageOperator_grows, Hlt.
  - apply PastePureRefFromCursorOperator_grows, Hlt.
Qed.

Lemma objects_come_from_clipboard_witness :
  exists image : pil_image,
    clipboard quiet_host = ClipImage image /\
    files (snd (PastePureRefImageOperator_execute quiet_host viewport_context
                  empty_world))
    = <[temp_path quiet_host := image]> ∅.
Proof.
  assert (Hlt : length (objects empty_world)
                < length (objects (snd (PastePureRefImageOperator_execute
                                          quiet_host viewport_context
                                          empty_world))))
    by (cbn; lia).
  destruct (objects_come_from_clipboard quiet_host PastePureRefImageOperator
              (PastePureRefImageOperator_execute quiet_host)
              viewport_context empty_world eq_refl Hlt)
    as (image & Hc & Hf & _).
  exists image; split; assumption.
Defined.

(** The data-block of an earlier paste is kept, but it refers to the same
    path, so the file behind it now holds the later image. *)
Example earlier_paste_shares_file :
  let w1 := snd (PastePureRefImageOperator_execute quiet_host viewport_context
                   empty_world) in
  let w2 := snd (PastePureRefFromCursorOperator_execute photo_host
                   viewport_context w1) in
  data <$> objects w2 !! 0%nat = Some (Some 0%nat) /\
  image_filepath <$> images w2 !! 0%nat = Some "/tmp/clipboard_image.png" /\
  files w1 !! "/tmp/clipboard_image.png" = Some screenshot /\
  files w2 !! "/tmp/clipboard_image.png" = Some photo.
Proof.
  intros w1 w2.
  split; [reflexivity |].
  split; [reflexivity |].
  assert (H1 : files w1 = <["/tmp/clipboard_image.png" := screenshot]> ∅)
    by (apply (PastePureRefImageOperator_saves quiet_host), quiet_host_saves).
  assert (H2 : files w2 = <["/tmp/clipboard_image.png" := photo]> (files w1))
    by (apply (PastePureRefFromCursorOperator_saves photo_host),
          photo_host_saves).
  rewrite H2, H1.
  split; apply lookup_insert_eq.
Qed.

End Operators.

(** ** More about [get_camera_facing_position] *)

Module CameraExtras.

Import Mathutils Bpy Addon Scenarios Lifecycle Inputs MathutilsFacts
  CameraFacing.

Local Open Scope R_scope.

Lemma vneg_zero : vneg zero_vector = zero_vector.
Proof. apply vector_eq; simpl; ring. Qed.

Lemma vscale_zero_l (s : R) : vscale zero_vector s = zero_vector.
Proof. apply vector_eq; simpl; ring. Qed.

Lemma vscale_zero_r (v : Vector) : vscale v 0 = zero_vector.
Proof. apply vector_eq; simpl; ring. Qed.

Lemma normalized_zero_vector : normalized zero_vector = zero_vector.
Proof. apply normalized_zero; unfold dot; simpl; ring. Qed.

(** [direction] in terms of [forward] (lines 57 and 61). *)
Lemma camera_direction_forward (camera_matrix : Matrix4) (distance : R) :
  camera_direction camera_matrix distance
  = normalized (vscale (camera_forward camera_matrix) (- distance)).
Proof.
  unfold camera_direction; cbv zeta.
  rewrite camera_location_minus_position; reflexivity.
Qed.

Lemma camera_direction_degenerate (camera_matrix : Matrix4) (distance : R) :
  forward_vector camera_matrix = zero_vector \/ distance = 0 ->
  camera_direction camera_matrix distance = zero_vector.
Proof.
  intros H; rewrite camera_direction_forward.
  destruct H as [H | ->].
  - unfold camera_forward; cbv zeta.
    fold (forward_vector camera_matrix); rewrite H.
    rewrite normalized_zero_vector, vscale_zero_l.
    apply normalized_zero_vector.
  - replace (- 0) with 0 by ring.
    rewrite vscale_zero_r; apply normalized_zero_vector.
Qed.

(** X3.  When the camera's world matrix maps the -Z axis to zero, or the
    distance is zero, [direction] is the zero vector and the matrix of lines
    72-76 has no entry but zero: it is not orthonormal. *)
Theorem camera_rotation_matrix_collapses
    (camera_matrix : Matrix4) (distance : R) :
  forward_vector camera_matrix = zero_vector \/ distance = 0 ->
  camera_rotation_matrix camera_matrix distance = zero_matrix /\
  ~ orthonormal (camera_rotation_matrix camera_matrix distance).
Proof.
  intros H.
  assert (Hm : camera_rotation_matrix camera_matrix distance = zero_matrix).
  { rewrite camera_rotation_matrix_regular.
    - cbv zeta; rewrite (camera_direction_degenerate _ _ H).
      replace (cross zero_vector (mkVector 0 0 1)) with zero_vector
        by (apply vector_eq; simpl; ring).
      rewrite normalized_zero_vector.
      replace (cross zero_vector zero_vector) with zero_vector
        by (apply vector_eq; simpl; ring).
      rewrite normalized_zero_vector, vneg_zero; reflexivity.
    - cbv zeta; rewrite (camera_direction_degenerate _ _ H); simpl.
      rewrite Rabs_R0; lra. }
  split; [exact Hm |].
  rewrite Hm; unfold orthonormal, mat_mul, mat_vec, identity3, dot; simpl.
  intros Habs; injection Habs as Habs _.
  lra.
Qed.

Lemma camera_rotation_matrix_collapses_witness :
  camera_rotation_matrix flat_camera 5 = zero_matrix.
Proof.
  exact (proj1 (camera_rotation_matrix_collapses flat_camera 5
                  (or_introl flat_camera_forward))).
Defined.

End CameraExtras.

(** ** [get_viewport_facing_position] *)

Module ViewportFacing.

Import Mathutils Bpy Addon Scenarios Lifecycle Inputs MathutilsFacts.

Local Open Scope R_scope.

Lemma viewport_facing_answer (h : Host) (area : Area) (distance : R) :
  viewport_facing h area distance = viewport_answer h area distance.
Proof.
  unfold viewport_facing, viewport_answer, spaces_0, matrix_inverted, rbind.
  destruct (spaces area) as [| space rest]; [reflexivity |].
  destruct (inverted h (view_matrix space)); reflexivity.
Qed.

Lemma scan_regions_window (h : Host) (area : Area) (distance : R)
    (rs : list Region) :
  scan_regions h area distance rs
  = if existsb is_window rs then Some (viewport_facing h area distance)
    else None.
Proof.
  induction rs as [| region rest IH]; [reflexivity |].
  simpl; unfold is_window at 1.
  destruct (String.eqb (region_type region) "WINDOW"); [reflexivity | exact IH].
Qed.

Lemma scan_areas_cons (h : Host) (distance : R) (area : Area)
    (rest : list Area) :
  scan_areas h distance (area :: rest)
  = if window_view area then viewport_facing h area distance
    else scan_areas h distance rest.
Proof.
  simpl; unfold window_view, poll.
  rewrite scan_regions_window.
  destruct (String.eqb (area_type area) "VIEW_3D"); [| reflexivity].
  destruct (existsb is_window (regions area)); reflexivity.
Qed.

Lemma scan_areas_skip (h : Host) (distance : R) (skipped rest : list Area) :
  Forall (fun area => window_view area = false) skipped ->
  scan_areas h distance (skipped ++ rest) = scan_areas h distance rest.
Proof.
  induction 1 as [| area skipped Ha _ IH]; [reflexivity |].
  rewrite <- app_comm_cons, scan_areas_cons, Ha; exact IH.
Qed.

(** X6.  When no area of the screen is a 3D view with a window region
    (what [poll] tests, and a region of type WINDOW), the answer is the
    origin and a zero rotation, whatever the distance. *)
Theorem viewport_fallback (h : Host) (context : Context) (distance : R) :
  Forall (fun area => window_view area = false) (screen_areas context) ->
  get_viewport_facing_position h context distance
  = Return (mkVector 0 0 0, mkVector 0 0 0).
Proof.
  intros H; unfold get_viewport_facing_position.
  rewrite <- (app_nil_r (screen_areas context)).
  rewrite scan_areas_skip by exact H; reflexivity.
Qed.

Lemma viewport_fallback_witness :
  get_viewport_facing_position quiet_host editor_context 5
  = Return (mkVector 0 0 0, mkVector 0 0 0).
Proof.
  apply (viewport_fallback quiet_host editor_context 5).
  repeat constructor.
Defined.

(** X7.  The first area that is a 3D view with a window region decides:
    areas before it are skipped, areas after it are never looked at, and
    the answer is that of its first space, also when that is an
    exception. *)
Theorem viewport_first_window_view_decides (h : Host) (context : Context)
    (distance : R) (skipped rest : list Area) (area : Area) :
  screen_areas context = skipped ++ area :: rest ->
  Forall (fun area => window_view area = false) skipped ->
  window_view area = true ->
  get_viewport_facing_position h context distance
  = viewport_answer h area distance.
Proof.
  intros Hareas Hskip Harea; unfold get_viewport_facing_position.
  rewrite Hareas, scan_areas_skip by exact Hskip.
  rewrite scan_areas_cons, Harea.
  apply viewport_facing_answer.
Qed.

Lemma viewport_first_window_view_decides_witness :
  get_viewport_facing_position quiet_host two_view_context 5
  = Raise (mkException false
             "bpy_prop_collection[index]: index 0 out of range, size 0").
Proof.
  apply (viewport_first_window_view_decides quiet_host two_view_context 5
           [image_editor] [full_view] empty_view eq_refl).
  - repeat constructor.
  - reflexivity.
Defined.

(** The answer is the fallback, or that of one area, whatever the
    distance. *)
Lemma scan_areas_cases (h : Host) (areas : list Area) :
  (forall distance,
     scan_areas h distance areas = Return (mkVector 0 0 0, mkVector 0 0 0)) \/
  (exists area, forall distance,
     scan_areas h distance areas = viewport_answer h area distance).
Proof.
  induction areas as [| area rest IH].
  - left; reflexivity.
  - destruct (window_view area) eqn:Ha.
    + right; exists area; intros distance.
      rewrite scan_areas_cons, Ha; apply viewport_facing_answer.
    + destruct IH as [IH | [area' IH]].
      * left; intros distance; rewrite scan_areas_cons, Ha; apply IH.
      * right; exists area'; intros distance.
        rewrite scan_areas_cons, Ha; apply IH.
Qed.

Lemma viewport_returns_at_any_distance (h : Host) (context : Context)
    (d1 d2 : R) (position rotation : Vector) :
  get_viewport_facing_position h context d1 = Return (position, rotation) ->
  exists position' : Vector,
    get_viewport_facing_position h context d2 = Return (position', rotation).
Proof.
  unfold get_viewport_facing_position.
  destruct (scan_areas_cases h (screen_areas context)) as [H | [area H]];
    rewrite !H.
  - intros Hr; injection Hr as <- <-; eexists; reflexivity.
  - unfold viewport_answer.
    destruct (spaces area) as [| space _]; [discriminate |].
    destruct (inverted h (view_matrix space)) as [view |]; [| discriminate].
    cbv zeta; intros Hr; injection Hr as <- <-; eexists; reflexivity.
Qed.

(** X8.  The distance passed to [get_viewport_facing_position] decides
    neither the rotation answered nor whether the call raises, and what it
    raises. *)
Theorem viewport_rotation_ignores_distance (h : Host) (context : Context)
    (d1 d2 : R) :
  (forall position rotation : Vector,
     get_viewport_facing_position h context d1
       = Return (position, rotation) ->
     exists position' : Vector,
       get_viewport_facing_position h context d2
         = Return (position', rotation)) /\
  (forall e : py_exception,
     get_viewport_facing_position h context d1 = Raise e ->
     get_viewport_facing_position h context d2 = Raise e).
Proof.
  split.
  - intros position rotation; apply viewport_returns_at_any_distance.
  - intros e; unfold get_viewport_facing_position.
    destruct (scan_areas_cases h (screen_areas context)) as [H | [area H]];
      rewrite !H; [discriminate |].
    unfold viewport_answer.
    destruct (spaces area) as [| space _]; [exact (fun H => H) |].
    destruct (inverted h (view_matrix space)) as [view |];
      [discriminate | exact (fun H => H)].
Qed.

Lemma viewport_rotation_ignores_distance_witness :
  get_viewport_facing_position quiet_host two_view_context 0
  = Raise (mkException false
             "bpy_prop_collection[index]: index 0 out of range, size 0").
Proof.
  apply (proj2 (viewport_rotation_ignores_distance quiet_host
                  two_view_context 5 0)).
  reflexivity.
Defined.

End ViewportFacing.

(** ** More about the operators *)

Module OperatorExtras.

Import Mathutils Bpy Addon Scenarios Lifecycle Inputs Operators
  ViewportFacing.

(** The calls of a list, one hypothesis for each. *)
Ltac each_call H :=
  unfold paste_calls, creation_calls, install_calls in H; simpl in H;
  repeat (apply Forall_cons in H; destruct H as [? H]); clear H.

(** The next host call when it is known to do its work. *)
Ltac step_done :=
  match goal with
  | H : raises ?h ?c = None |- context [raises ?h ?c] =>
      let E := fresh in
      destruct (raises h c) eqn:E;
      [exfalso; first [discriminate H | rewrite E in H; discriminate H]
      | clear E]; simpl
  end.

Ltac completes Hcalls Hclip Hview :=
  each_call Hcalls;
  unfold PastePureRefImageOperator_execute, PastePureRefImageOperator_try,
         PastePureRefFromCursorOperator_execute,
         PastePureRefFromCursorOperator_try;
  unfold_host;
  repeat step_done;
  rewrite Hclip; simpl; repeat step_done;
  rewrite Hview; simpl; repeat step_done;
  rewrite ?alter_appended, ?lookup_appended; simpl;
  rewrite <- ?app_assoc; reflexivity.

Lemma PastePureRefImageOperator_completes (h : Host) (context : Context)
    (w : World) (image : pil_image) (position rotation : Vector) :
  Forall (fun c => raises h c = None) paste_calls ->
  clipboard h = ClipImage image ->
  get_viewport_facing_position h context 5 = Return (position, rotation) ->
  PastePureRefImageOperator_execute h context w
  = (Return FINISHED,
     pasted_world h image_pasted_message image position rotation w).
Proof. intros Hcalls Hclip Hview. completes Hcalls Hclip Hview. Qed.

Lemma PastePureRefFromCursorOperator_completes (h : Host) (context : Context)
    (w : World) (image : pil_image) (position rotation : Vector) :
  Forall (fun c => raises h c = None) paste_calls ->
  clipboard h = ClipImage image ->
  get_viewport_facing_position h context 0 = Return (position, rotation) ->
  PastePureRefFromCursorOperator_execute h context w
  = (Return FINISHED,
     pasted_world h cursor_pasted_message image
       (cursor_location (scene context)) rotation w).
Proof. intros Hcalls Hclip Hview. completes Hcalls Hclip Hview. Qed.

Lemma PastePureRefImageOperator_pasted_calls (h : Host) (context : Context)
    (w : World) :
  pasted w (snd (PastePureRefImageOperator_execute h context w)) ->
  Forall (fun c => raises h c = None) paste_calls.
Proof.
  run_paste; try not_pasted.
  intros _; repeat constructor; assumption.
Qed.

Lemma PastePureRefFromCursorOperator_pasted_calls (h : Host)
    (context : Context) (w : World) :
  pasted w (snd (PastePureRefFromCursorOperator_execute h context w)) ->
  Forall (fun c => raises h c = None) paste_calls.
Proof.
  run_paste; try not_pasted.
  intros _; repeat constructor; assumption.
Qed.

Lemma pasted_world_pasted (h : Host) (message : string) (image : pil_image)
    (position rotation : Vector) (w : World) :
  pasted w (pasted_world h message image position rotation w).
Proof. exists message; reflexivity. Qed.

Lemma PastePureRefImageOperator_pasted_iff (h : Host) (context : Context)
    (w : World) :
  pasted w (snd (PastePureRefImageOperator_execute h context w)) <->
  Forall (fun call => raises h call = None) paste_calls /\
  (exists image, clipboard h = ClipImage image) /\
  (exists position rotation,
     get_viewport_facing_position h context 0 = Return (position, rotation)).
Proof.
  split.
  - intros Hp.
    split; [apply (PastePureRefImageOperator_pasted_calls h context w Hp) |].
    destruct (PastePureRefImageOperator_pasted h context w Hp)
      as (image & position & rotation & _ & Hclip & Hview & _).
    split; [exists image; exact Hclip |].
    destruct (viewport_returns_at_any_distance h context 5 0 _ _ Hview)
      as [position' Hview'].
    exists position', rotation; exact Hview'.
  - intros (Hcalls & [image Hclip] & (position & rotation & Hview)).
    destruct (viewport_returns_at_any_distance h context 0 5 _ _ Hview)
      as [position' Hview'].
    rewrite (PastePureRefImageOperator_completes h context w image
               position' rotation Hcalls Hclip Hview').
    apply pasted_world_pasted.
Qed.

Lemma PastePureRefFromCursorOperator_pasted_iff (h : Host)
    (context : Context) (w : World) :
  pasted w (snd (PastePureRefFromCursorOperator_execute h context w)) <->
  Forall (fun call => raises h call = None) paste_calls /\
  (exists image, clipboard h = ClipImage image) /\
  (exists position rotation,
     get_viewport_facing_position h context 0 = Return (position, rotation)).
Proof.
  split.
  - intros Hp.
    split; [apply (PastePureRefFromCursorOperator_pasted_calls h context w Hp) |].
    destruct (PastePureRefFromCursorOperator_pasted h context w Hp)
      as (image & position & rotation & _ & Hclip & Hview & _).
    split; [exists image; exact Hclip |].
    exists position, rotation; exact Hview.
  - intros (Hcalls & [image Hclip] & (position & rotation & Hview)).
    rewrite (PastePureRefFromCursorOperator_completes h context w image
               position rotation Hcalls Hclip Hview).
    apply pasted_world_pasted.
Qed.

(** X9.  A run of either paste operator pastes exactly when none of the
    host calls of its [try] block raises, the clipboard holds an image and
    [get_viewport_facing_position] returns. *)
Theorem paste_completes_iff (h : Host) (c : addon_class)
    (exec : Context -> M status) (context : Context) (w : World) :
  In c menu_func ->
  execute h c = Some exec ->
  pasted w (snd (exec context w)) <->
  Forall (fun call => raises h call = None) paste_calls /\
  (exists image, clipboard h = ClipImage image) /\
  (exists position rotation,
     get_viewport_facing_position h context 0 = Return (position, rotation)).
Proof.
  intros Hc Hexec.
  destruct (menu_func_cases c Hc) as [-> | ->]; injection Hexec as <-.
  - apply PastePureRefImageOperator_pasted_iff.
  - apply PastePureRefFromCursorOperator_pasted_iff.
Qed.

Lemma quiet_calls :
  Forall (fun call => raises quiet_host call = None) paste_calls.
Proof. repeat constructor. Defined.

Lemma paste_completes_iff_witness :
  pasted empty_world
    (snd (PastePureRefFromCursorOperator_execute quiet_host viewport_context
            empty_world)).
Proof.
  apply (proj2 (paste_completes_iff quiet_host PastePureRefFromCursorOperator
                  (PastePureRefFromCursorOperator_execute quiet_host)
                  viewport_context empty_world
                  (or_intror (or_introl eq_refl)) eq_refl)).
  split; [exact quiet_calls |].
  split; [exists screenshot; reflexivity |].
  eexists _, _; cbn; reflexivity.
Defined.

(** X10.  In the same world and context the two paste operators paste in
    the same runs, and what they leave differs only in the location of the
    new object and in the text of the report. *)
Theorem paste_operators_differ_in_location (h : Host) (context : Context)
    (w : World) :
  let by_view := snd (PastePureRefImageOperator_execute h context w) in
  let by_cursor := snd (PastePureRefFromCursorOperator_execute h context w) in
  (pasted w by_view <-> pasted w by_cursor) /\
  (pasted w by_view ->
   exists (image : pil_image) (position rotation : Vector),
     by_view
     = pasted_world h image_pasted_message image position rotation w /\
     by_cursor
     = pasted_world h cursor_pasted_message image
         (cursor_location (scene context)) rotation w).
Proof.
  intros by_view by_cursor.
  assert (Hiff : pasted w by_view <-> pasted w by_cursor).
  { unfold by_view, by_cursor.
    rewrite PastePureRefImageOperator_pasted_iff,
      PastePureRefFromCursorOperator_pasted_iff.
    reflexivity. }
  split; [exact Hiff |].
  intros Hv.
  pose proof (proj1 Hiff Hv) as Hc.
  destruct (PastePureRefImageOperator_pasted h context w Hv)
    as (image & position & rotation & _ & Hclip & Hview & Hw).
  destruct (PastePureRefFromCursorOperator_pasted h context w Hc)
    as (image' & position' & rotation' & _ & Hclip' & Hview' & Hw').
  exists image, position, rotation.
  split; [exact Hw |].
  unfold by_cursor; rewrite Hw'.
  assert (image' = image) as -> by congruence.
  destruct (viewport_returns_at_any_distance h context 5 0 _ _ Hview)
    as [p Hp].
  assert (rotation' = rotation) as -> by congruence.
  reflexivity.
Qed.

Lemma paste_operators_differ_in_location_witness :
  exists (image : pil_image) (position rotation : Vector),
    snd (PastePureRefFromCursorOperator_execute quiet_host viewport_context
           empty_world)
    = pasted_world quiet_host cursor_pasted_message image
        (mkVector 1 2 3) rotation empty_world.
Proof.
  destruct (proj2 (paste_operators_differ_in_location quiet_host
                     viewport_context empty_world) quiet_image_paste)
    as (image & position & rotation & _ & H).
  exists image, position, rotation; exact H.
Defined.

(** The rest of a run after the calls known to do their work. *)
Ltac run_rest :=
  repeat step;
  try (match goal with
       | |- context [get_viewport_facing_position ?h ?c ?d] =>
           destruct (get_viewport_facing_position h c d)
             as [[? ?] | ?] eqn:?; simpl
       end);
  handled;
  rewrite ?alter_appended, ?lookup_appended; simpl;
  rewrite <- ?app_assoc; simpl.

Ltac run_created Hcalls Hclip :=
  each_call Hcalls;
  unfold PastePureRefImageOperator_execute, PastePureRefImageOperator_try,
         PastePureRefFromCursorOperator_execute,
         PastePureRefFromCursorOperator_try;
  unfold_host;
  repeat step_done;
  rewrite Hclip; simpl; repeat step_done;
  run_rest.

(** The kind of the exception of the run is known. *)
Ltac of_kind :=
  match goal with
  | Hk : exc_kind _ = _ |- _ => rewrite Hk
  end; reflexivity.

Ltac left_behind :=
  let Hn := fresh in
  intros Hn;
  first [ exfalso; apply Hn; eexists; reflexivity
        | eexists;
          repeat (split; [first [apply lookup_insert_eq | reflexivity] |]);
          first [ left; eexists; split; reflexivity
                | right; eexists; split; [reflexivity |];
                  split; [reflexivity | of_kind] ] ].

Lemma PastePureRefImageOperator_left_behind (h : Host) (context : Context)
    (w : World) (image : pil_image) :
  Forall (fun call => raises h call = None) creation_calls ->
  clipboard h = ClipImage image ->
  let w' := snd (PastePureRefImageOperator_execute h context w) in
  ~ pasted w w' ->
  exists ref : Object,
    objects w' = objects w ++ [ref] /\
    select ref = false /\
    images w' = images w ++ [mkImage (basename h (temp_path h)) (temp_path h)] /\
    files w' !! temp_path h = Some image /\
    ((exists message : string,
        reports w' = reports w ++ [(ERROR, message)] /\
        fst (PastePureRefImageOperator_execute h context w)
        = Return FINISHED) \/
     (exists e : py_exception,
        reports w' = reports w /\
        fst (PastePureRefImageOperator_execute h context w) = Raise e /\
        exc_is_exception e = false)).
Proof.
  intros Hcalls Hclip; cbv zeta.
  run_created Hcalls Hclip; left_behind.
Qed.

Lemma PastePureRefFromCursorOperator_left_behind (h : Host)
    (context : Context) (w : World) (image : pil_image) :
  Forall (fun call => raises h call = None) creation_calls ->
  clipboard h = ClipImage image ->
  let w' := snd (PastePureRefFromCursorOperator_execute h context w) in
  ~ pasted w w' ->
  exists ref : Object,
    objects w' = objects w ++ [ref] /\
    select ref = false /\
    images w' = images w ++ [mkImage (basename h (temp_path h)) (temp_path h)] /\
    files w' !! temp_path h = Some image /\
    ((exists message : string,
        reports w' = reports w ++ [(ERROR, message)] /\
        fst (PastePureRefFromCursorOperator_execute h context w)
        = Return FINISHED) \/
     (exists e : py_exception,
        reports w' = reports w /\
        fst (PastePureRefFromCursorOperator_execute h context w) = Raise e /\
        exc_is_exception e = false)).
Proof.
  intros Hcalls Hclip; cbv zeta.
  run_created Hcalls Hclip; left_behind.
Qed.

(** X11.  A run of either paste operator that got past
    [bpy.data.objects.new] and then failed is not undone: the new object,
    not selected, the image data-block and the temporary file stay.  The
    run ends with an [ERROR] report and [{'FINISHED'}], or, when what was
    raised is no instance of [Exception], with that exception and no
    report. *)
Theorem failed_paste_leaves_object (h : Host) (c : addon_class)
    (exec : Context -> M status) (context : Context) (w : World)
    (image : pil_image) :
  In c menu_func ->
  execute h c = Some exec ->
  Forall (fun call => raises h call = None) creation_calls ->
  clipboard h = ClipImage image ->
  let w' := snd (exec context w) in
  ~ pasted w w' ->
  exists ref : Object,
    objects w' = objects w ++ [ref] /\
    select ref = false /\
    images w' = images w ++ [mkImage (basename h (temp_path h)) (temp_path h)] /\
    files w' !! temp_path h = Some image /\
    ((exists message : string,
        reports w' = reports w ++ [(ERROR, message)] /\
        fst (exec context w) = Return FINISHED) \/
     (exists e : py_exception,
        reports w' = reports w /\
        fst (exec context w) = Raise e /\
        exc_is_exception e = false)).
Proof.
  intros Hc Hexec.
  destruct (menu_func_cases c Hc) as [-> | ->]; injection Hexec as <-.
  - apply PastePureRefImageOperator_left_behind.
  - apply PastePureRefFromCursorOperator_left_behind.
Qed.

Lemma failed_paste_leaves_object_witness :
  exists ref : Object,
    objects (snd (PastePureRefImageOperator_execute link_fails_host
                    viewport_context empty_world)) = [] ++ [ref] /\
    select ref = false.
Proof.
  assert (Hcalls : Forall (fun call => raises link_fails_host call = None)
                     creation_calls) by repeat constructor.
  assert (Hn : ~ pasted empty_world
                 (snd (PastePureRefImageOperator_execute link_fails_host
                         viewport_context empty_world))).
  { intros [message H]; cbn in H; discriminate H. }
  destruct (failed_paste_leaves_object link_fails_host
              PastePureRefImageOperator
              (PastePureRefImageOperator_execute link_fails_host)
              viewport_context empty_world screenshot
              (or_introl eq_refl) eq_refl Hcalls eq_refl Hn)
    as (ref & Ho & Hs & _).
  exists ref; split; assumption.
Defined.

(** *** Nothing to paste *)

Ltac nothing_pasted :=
  let H := fresh in
  intros H; unfold reported, report;
  first [ left; eexists _, _; split; cycle 1;
          [split; reflexivity | discriminate]
        | right; split; [reflexivity |];
          eexists; split; [reflexivity | of_kind]
        | exfalso; destruct H as [H | [H | H]];
          [apply H; reflexivity | apply H; reflexivity
          | eapply H; reflexivity] ].

Lemma PastePureRefImageOperator_nothing (h : Host) (context : Context)
    (w : World) :
  raises h ImportPIL <> None \/ raises h GrabClipboard <> None \/
  (forall image, clipboard h <> ClipImage image) ->
  (exists (level : report_level) (message : string),
     level <> INFO /\
     snd (PastePureRefImageOperator_execute h context w)
     = reported level message w /\
     fst (PastePureRefImageOperator_execute h context w) = Return FINISHED) \/
  (snd (PastePureRefImageOperator_execute h context w) = w /\
   exists e : py_exception,
     fst (PastePureRefImageOperator_execute h context w) = Raise e /\
     exc_is_exception e = false).
Proof. run_paste; nothing_pasted. Qed.

Lemma PastePureRefFromCursorOperator_nothing (h : Host) (context : Context)
    (w : World) :
  raises h ImportPIL <> None \/ raises h GrabClipboard <> None \/
  (forall image, clipboard h <> ClipImage image) ->
  (exists (level : report_level) (message : string),
     level <> INFO /\
     snd (PastePureRefFromCursorOperator_execute h context w)
     = reported level message w /\
     fst (PastePureRefFromCursorOperator_execute h context w)
     = Return FINISHED) \/
  (snd (PastePureRefFromCursorOperator_execute h context w) = w /\
   exists e : py_exception,
     fst (PastePureRefFromCursorOperator_execute h context w) = Raise e /\
     exc_is_exception e = false).
Proof. run_paste; nothing_pasted. Qed.

(** X12.  When the import of Pillow or [grabclipboard] raises, or the
    clipboard holds no image, a run of either paste operator either adds
    one report that is not [INFO] and changes nothing else, or, when what
    was raised is no instance of [Exception], changes nothing at all and
    ends with that exception. *)
Theorem nothing_to_paste_changes_nothing (h : Host) (c : addon_class)
    (exec : Context -> M status) (context : Context) (w : World) :
  In c menu_func ->
  execute h c = Some exec ->
  raises h ImportPIL <> None \/ raises h GrabClipboard <> None \/
  (forall image, clipboard h <> ClipImage image) ->
  (exists (level : report_level) (message : string),
     level <> INFO /\
     snd (exec context w) = reported level message w /\
     fst (exec context w) = Return FINISHED) \/
  (snd (exec context w) = w /\
   exists e : py_exception,
     fst (exec context w) = Raise e /\ exc_is_exception e = false).
Proof.
  intros Hc Hexec.
  destruct (menu_func_cases c Hc) as [-> | ->]; injection Hexec as <-.
  - apply PastePureRefImageOperator_nothing.
  - apply PastePureRefFromCursorOperator_nothing.
Qed.

Lemma nothing_to_paste_changes_nothing_witness :
  snd (PastePureRefImageOperator_execute interrupted_host viewport_context
         empty_world) = empty_world \/
  exists (level : report_level) (message : string),
    level <> INFO /\
    snd (PastePureRefImageOperator_execute interrupted_host viewport_context
           empty_world)
    = reported level message empty_world.
Proof.
  assert (H : raises interrupted_host ImportPIL <> None \/
              raises interrupted_host GrabClipboard <> None \/
              (forall image, clipboard interrupted_host <> ClipImage image))
    by (right; left; discriminate).
  destruct (nothing_to_paste_changes_nothing interrupted_host
              PastePureRefImageOperator
              (PastePureRefImageOperator_execute interrupted_host)
              viewport_context empty_world (or_introl eq_refl) eq_refl H)
    as [(level & message & Hl & Hw & _) | [Hw _]].
  - right; exists level, message; split; assumption.
  - left; exact Hw.
Defined.

(** *** [InstallPillowOperator.execute] *)

Ltac run_install :=
  unfold InstallPillowOperator_execute, InstallPillowOperator_try;
  unfold_host; repeat step; handled.

Ltac first_failure before :=
  exists before; eexists _, _, _;
  split; [reflexivity |];
  split; [repeat constructor; assumption |];
  split; [eassumption |];
  match goal with
  | Hk : exc_kind _ = _ |- _ => rewrite Hk
  end; split; reflexivity.

(** X18.  [InstallPillowOperator.execute] leaves the data-blocks, the
    collection and the active object as they were.  When none of its three
    host calls raises it adds the [INFO] and returns [{'FINISHED'}].  When
    one raises, the first that does decides: an instance of [Exception],
    an [ImportError] like any other, gives one [ERROR] that carries its
    [str(e)] and [{'FINISHED'}]; anything else leaves [execute] with no
    report. *)
Theorem install_pillow_reports (h : Host) (context : Context) (w : World) :
  let w' := snd (InstallPillowOperator_execute h context w) in
  (objects w' = objects w /\ images w' = images w /\
   collection_objects w' = collection_objects w /\
   active_object w' = active_object w) /\
  ((Forall (fun call => raises h call = None) install_calls /\
    fst (InstallPillowOperator_execute h context w) = Return FINISHED /\
    reports w'
    = reports w ++
      [(INFO, "Pillow installed successfully. Please restart Blender.")])
   \/
   (exists (before : list host_call) (call : host_call)
           (after : list host_call) (e : py_exception),
      install_calls = before ++ call :: after /\
      Forall (fun call => raises h call = None) before /\
      raises h call = Some e /\
      if exc_is_exception e then
        fst (InstallPillowOperator_execute h context w) = Return FINISHED /\
        reports w'
        = reports w ++ [(ERROR, "Failed to install Pillow: " +:+ exc_str e)]
      else
        fst (InstallPillowOperator_execute h context w) = Raise e /\
        reports w' = reports w)).
Proof.
  cbv zeta; run_install; (split; [repeat split; reflexivity |]).
  all: first [ left; split; [repeat constructor; assumption |];
               split; reflexivity
             | right;
               first [ solve [first_failure (@nil host_call)]
                     | solve [first_failure [ImportEnsurepip]]
                     | solve [first_failure
                                [ImportEnsurepip; EnsurepipBootstrap]] ] ].
Qed.

(** *** Files, reports, references *)

Ltac one_report :=
  split; intros ? H; first [ discriminate H | eexists _, _; reflexivity
                           | reflexivity ].

(** X15.  An [execute] of the add-on that returns has added exactly one
    report; one that an exception leaves has added none. *)
Theorem execute_reports_once (h : Host) (c : addon_class)
    (exec : Context -> M status) (context : Context) (w : World) :
  execute h c = Some exec ->
  (forall s : status,
     fst (exec context w) = Return s ->
     exists (level : report_level) (message : string),
       reports (snd (exec context w)) = reports w ++ [(level, message)]) /\
  (forall e : py_exception,
     fst (exec context w) = Raise e ->
     reports (snd (exec context w)) = reports w).
Proof.
  intros Hexec.
  destruct c; try discriminate Hexec; injection Hexec as <-.
  - run_install; one_report.
  - run_paste; one_report.
  - run_paste; one_report.
Qed.

Lemma execute_reports_once_witness :
  exists (level : report_level) (message : string),
    reports (snd (InstallPillowOperator_execute no_pillow_host
                    viewport_context empty_world))
    = reports empty_world ++ [(level, message)].
Proof.
  exact (proj1 (execute_reports_once no_pillow_host InstallPillowOperator
                  (InstallPillowOperator_execute no_pillow_host)
                  viewport_context empty_world eq_refl)
               FINISHED eq_refl).
Defined.

(** *** References stay valid *)

Lemma well_formed_step (w w' : World) :
  well_formed w ->
  (exists more, images w' = images w ++ more) ->
  (objects w' = objects w \/
   exists ref, objects w' = objects w ++ [ref] /\
     forall img, data ref = Some img -> img < length (images w')) ->
  (collection_objects w' = collection_objects w \/
   (collection_objects w' = collection_objects w ++ [length (objects w)] /\
    length (objects w) < length (objects w'))) ->
  (active_object w' = active_object w \/
   (active_object w' = Some (length (objects w)) /\
    length (objects w) < length (objects w'))) ->
  well_formed w'.
Proof.
  intros (Hlinks & Hnodup & Hactive & Hdata) [more Himages]
    Hobjects Hcollection Hact.
  assert (Hlen : length (objects w) <= length (objects w')).
  { destruct Hobjects as [-> | (ref & -> & _)];
      [| rewrite length_app; simpl]; lia. }
  assert (Hilen : length (images w) <= length (images w'))
    by (rewrite Himages, length_app; lia).
  unfold well_formed; repeat split.
  - destruct Hcollection as [-> | [-> Hlt]].
    + eapply Forall_impl; [exact Hlinks | simpl; intros; lia].
    + apply Forall_app; split.
      * eapply Forall_impl; [exact Hlinks | simpl; intros; lia].
      * repeat constructor; exact Hlt.
  - destruct Hcollection as [-> | [-> _]]; [exact Hnodup |].
    apply NoDup_app; split; [exact Hnodup |].
    split; [| apply NoDup_singleton].
    intros ref Hin Hnew.
    apply list_elem_of_singleton in Hnew; subst ref.
    rewrite Forall_forall in Hlinks.
    specialize (Hlinks _ Hin); lia.
  - intros ref Href.
    destruct Hact as [Heq | [Heq Hlt]]; rewrite Heq in Href.
    + specialize (Hactive ref Href); lia.
    + injection Href as <-; exact Hlt.
  - destruct Hobjects as [-> | (ref & -> & Href)].
    + eapply Forall_impl; [exact Hdata |].
      simpl; intros o Ho img Hd; specialize (Ho img Hd); lia.
    + apply Forall_app; split.
      * eapply Forall_impl; [exact Hdata |].
        simpl; intros o Ho img Hd; specialize (Ho img Hd); lia.
      * repeat constructor; exact Href.
Qed.

Ltac grows_by_one := simpl; rewrite ?length_app; simpl; lia.

Ltac stays_well_formed :=
  let Hw := fresh in
  intros Hw; apply (well_formed_step _ _ Hw); simpl;
  [ first [ exists []; symmetry; apply app_nil_r | eexists; reflexivity ]
  | first [ left; reflexivity
          | right; eexists; split; [reflexivity |];
            let Hd := fresh in
            simpl; intros ? Hd;
            first [ discriminate Hd | injection Hd as <-; grows_by_one ] ]
  | first [ left; reflexivity | right; split; [reflexivity | grows_by_one] ]
  | first [ left; reflexivity | right; split; [reflexivity | grows_by_one] ] ].

(** X14.  Every [execute] of the add-on, also one that fails half way,
    keeps the references of the world valid: linked and active objects
    exist, no object is linked twice, and the image of every object is an
    image data-block. *)
Theorem execute_keeps_well_formed (h : Host) (c : addon_class)
    (exec : Context -> M status) (context : Context) (w : World) :
  execute h c = Some exec ->
  well_formed w ->
  well_formed (snd (exec context w)).
Proof.
  intros Hexec.
  destruct c; try discriminate Hexec; injection Hexec as <-.
  - run_install; stays_well_formed.
  - run_paste; stays_well_formed.
  - run_paste; stays_well_formed.
Qed.

Lemma empty_world_well_formed : well_formed empty_world.
Proof.
  unfold well_formed; simpl.
  split; [constructor |].
  split; [constructor |].
  split; [intros ref H; discriminate H | constructor].
Defined.

Lemma execute_keeps_well_formed_witness :
  well_formed (snd (PastePureRefImageOperator_execute link_fails_host
                      viewport_context empty_world)).
Proof.
  exact (execute_keeps_well_formed link_fails_host PastePureRefImageOperator
           (PastePureRefImageOperator_execute link_fails_host)
           viewport_context empty_world eq_refl empty_world_well_formed).
Defined.

(** *** The pasted object and its image *)

Lemma paste_pasted_world (h : Host) (c : addon_class)
    (exec : Context -> M status) (context : Context) (w : World) :
  In c menu_func ->
  execute h c = Some exec ->
  pasted w (snd (exec context w)) ->
  exists message image position rotation,
    clipboard h = ClipImage image /\
    snd (exec context w) = pasted_world h message image position rotation w.
Proof.
  intros Hc Hexec Hp.
  destruct (menu_func_cases c Hc) as [-> | ->]; injection Hexec as <-.
  - destruct (PastePureRefImageOperator_pasted h context w Hp)
      as (image & position & rotation & _ & Hclip & _ & Hw).
    eexists _, _, _, _; split; [exact Hclip | exact Hw].
  - destruct (PastePureRefFromCursorOperator_pasted h context w Hp)
      as (image & position & rotation & _ & Hclip & _ & Hw).
    eexists _, _, _, _; split; [exact Hclip | exact Hw].
Qed.

(** X16.  After a paste the new object refers to the image data-block that
    was loaded from the temporary file, and the file at that path is the one
    [image.save] wrote from the clipboard image of this run. *)
Theorem pasted_object_shows_clipboard_image (h : Host) (c : addon_class)
    (exec : Context -> M status) (context : Context) (w : World) :
  In c menu_func ->
  execute h c = Some exec ->
  let w' := snd (exec context w) in
  pasted w w' ->
  exists (image : pil_image) (ref : Object) (img : nat) (block : Image),
    clipboard h = ClipImage image /\
    objects w' !! length (objects w) = Some ref /\
    data ref = Some img /\
    images w' !! img = Some block /\
    image_filepath block = temp_path h /\
    files w' !! temp_path h = Some image.
Proof.
  intros Hc Hexec w' Hp.
  destruct (paste_pasted_world h c exec context w Hc Hexec Hp)
    as (message & image & position & rotation & Hclip & Hw).
  unfold w'; rewrite Hw.
  exists image, (pasted_object h w position rotation), (length (images w)),
    (mkImage (basename h (temp_path h)) (temp_path h)).
  split; [exact Hclip |].
  split; [apply lookup_appended |].
  split; [reflexivity |].
  split; [apply lookup_appended |].
  split; [reflexivity | apply lookup_insert_eq].
Qed.

Lemma pasted_object_shows_clipboard_image_witness :
  exists (image : pil_image) (ref : Object) (img : nat) (block : Image),
    clipboard quiet_host = ClipImage image /\
    objects (snd (PastePureRefImageOperator_execute quiet_host
                    viewport_context empty_world)) !! 0%nat = Some ref /\
    data ref = Some img.
Proof.
  destruct (pasted_object_shows_clipboard_image quiet_host
              PastePureRefImageOperator
              (PastePureRefImageOperator_execute quiet_host)
              viewport_context empty_world (or_introl eq_refl) eq_refl
              quiet_image_paste)
    as (image & ref & img & block & Hc & Ho & Hd & _).
  exists image, ref, img, block; auto.
Defined.

Lemma length_appended {A : Type} (l : list A) (x : A) :
  length (l ++ [x]) = S (length l).
Proof. rewrite length_app; simpl; lia. Qed.

Lemma lookup_first_appended {A : Type} (l : list A) (x y : A) :
  (l ++ [x; y]) !! length l = Some x.
Proof. apply list_lookup_middle; reflexivity. Qed.

Lemma lookup_second_appended {A : Type} (l : list A) (x y : A) :
  (l ++ [x; y]) !! S (length l) = Some y.
Proof.
  rewrite lookup_app_r by lia.
  replace (S (length l) - length l)%nat with 1%nat by lia; reflexivity.
Qed.

(** X17.  Two pastes in a row leave two new objects, each with an image
    data-block of its own; the second paste moves the active object but
    leaves the first object selected and linked, and both data-blocks name
    the temporary path of their run. *)
Theorem second_paste_keeps_first (h1 h2 : Host) (c1 c2 : addon_class)
    (exec1 exec2 : Context -> M status) (context1 context2 : Context)
    (w : World) :
  In c1 menu_func -> execute h1 c1 = Some exec1 ->
  In c2 menu_func -> execute h2 c2 = Some exec2 ->
  let w1 := snd (exec1 context1 w) in
  let w2 := snd (exec2 context2 w1) in
  pasted w w1 -> pasted w1 w2 ->
  exists ref1 ref2 : Object,
    objects w2 = objects w ++ [ref1; ref2] /\
    select ref1 = true /\ select ref2 = true /\
    active_object w2 = Some (S (length (objects w))) /\
    collection_objects w2
    = collection_objects w ++ [length (objects w); S (length (objects w))] /\
    data ref1 = Some (length (images w)) /\
    data ref2 = Some (S (length (images w))) /\
    image_filepath <$> images w2 !! length (images w) = Some (temp_path h1) /\
    image_filepath <$> images w2 !! S (length (images w))
    = Some (temp_path h2).
Proof.
  intros Hc1 He1 Hc2 He2 w1 w2 Hp1 Hp2.
  destruct (paste_pasted_world h1 c1 exec1 context1 w Hc1 He1 Hp1)
    as (m1 & i1 & p1 & r1 & _ & Hw1).
  destruct (paste_pasted_world h2 c2 exec2 context2 w1 Hc2 He2 Hp2)
    as (m2 & i2 & p2 & r2 & _ & Hw2).
  fold w1 in Hw1; fold w2 in Hw2.
  rewrite Hw2, Hw1; simpl.
  rewrite !length_appended, <- !app_assoc; simpl.
  eexists _, _.
  split; [reflexivity |].
  repeat (split; [reflexivity |]).
  split; [simpl; rewrite length_appended; reflexivity |].
  rewrite lookup_first_appended, lookup_second_appended.
  split; reflexivity.
Qed.

Lemma second_paste_keeps_first_witness :
  exists ref1 ref2 : Object,
    objects (snd (PastePureRefFromCursorOperator_execute photo_host
                    viewport_context
                    (snd (PastePureRefImageOperator_execute quiet_host
                            viewport_context empty_world))))
    = [] ++ [ref1; ref2] /\
    select ref1 = true /\ select ref2 = true.
Proof.
  assert (Hp : pasted
                 (snd (PastePureRefImageOperator_execute quiet_host
                         viewport_context empty_world))
                 (snd (PastePureRefFromCursorOperator_execute photo_host
                         viewport_context
                         (snd (PastePureRefImageOperator_execute quiet_host
                                 viewport_context empty_world)))))
    by (eexists; cbn; reflexivity).
  destruct (second_paste_keeps_first quiet_host photo_host
              PastePureRefImageOperator PastePureRefFromCursorOperator
              (PastePureRefImageOperator_execute quiet_host)
              (PastePureRefFromCursorOperator_execute photo_host)
              viewport_context viewport_context empty_world
              (or_introl eq_refl) eq_refl
              (or_intror (or_introl eq_refl)) eq_refl
              quiet_image_paste Hp)
    as (ref1 & ref2 & Ho & Hs1 & Hs2 & _).
  exists ref1, ref2; auto.
Defined.

End OperatorExtras.

(** ** Registration, unregistration and the preferences panel *)

Module LifecycleFacts.

Import Mathutils Bpy Addon Scenarios Lifecycle Inputs Operators.

Ltac run_register := unfold register; unfold_host; repeat step.

Ltac stopped_at done :=
  exists done; eexists _, _, _;
  split; [reflexivity |];
  split; [repeat constructor; assumption |];
  split; [eassumption |];
  repeat split; first [reflexivity | symmetry; apply app_nil_r].

(** X19.  [register] is not undone when it fails: it raises what the first
    failing host call raises and leaves registered exactly the classes
    before that call; the menu entry is appended only after all four
    classes are registered. *)
Theorem register_stops_at_first_failure (h : Host) (w : World) :
  let w' := snd (register h w) in
  (fst (register h w) = Return tt /\
   classes w' = classes w ++ addon_classes /\
   view3d_mt_add w' = view3d_mt_add w ++ [menu_func]) \/
  (exists (done : list addon_class) (c : addon_class)
          (rest : list addon_class) (e : py_exception),
     addon_classes = done ++ c :: rest /\
     Forall (fun c => raises h (RegisterClass c) = None) done /\
     raises h (RegisterClass c) = Some e /\
     fst (register h w) = Raise e /\
     classes w' = classes w ++ done /\
     view3d_mt_add w' = view3d_mt_add w) \/
  (exists e : py_exception,
     Forall (fun c => raises h (RegisterClass c) = None) addon_classes /\
     raises h MenuAppend = Some e /\
     fst (register h w) = Raise e /\
     classes w' = classes w ++ addon_classes /\
     view3d_mt_add w' = view3d_mt_add w).
Proof.
  cbv zeta; run_register; rewrite <- ?app_assoc; simpl.
  all: first
    [ left; repeat split; reflexivity
    | right; left;
      first [ solve [stopped_at (@nil addon_class)]
            | solve [stopped_at [InstallPillowOperator]]
            | solve [stopped_at [InstallPillowOperator;
                                 PastePureRefImageOperator]]
            | solve [stopped_at [InstallPillowOperator;
                                 PastePureRefImageOperator;
                                 PastePureRefFromCursorOperator]] ]
    | right; right; eexists;
      split; [repeat constructor; assumption |];
      split; [first [eassumption | reflexivity] |];
      repeat split; reflexivity ].
Qed.

(** *** [unregister] *)

Lemma remove_first_here {A : Type} `{EqDecision A} (x : A) (l : list A) :
  remove_first x (x :: l) = l.
Proof. simpl; rewrite decide_True by reflexivity; reflexivity. Qed.

Lemma remove_first_later {A : Type} `{EqDecision A} (x : A) (l k : list A) :
  ~ In x l -> remove_first x (l ++ k) = l ++ remove_first x k.
Proof.
  induction l as [| y l IH]; intros Hx; [reflexivity |].
  simpl; rewrite decide_False by (intros ->; apply Hx; left; reflexivity).
  rewrite IH by (intros Hin; apply Hx; right; exact Hin); reflexivity.
Qed.

Lemma register_done (h : Host) (w : World) :
  Forall (fun c => raises h (RegisterClass c) = None) addon_classes ->
  raises h MenuAppend = None ->
  register h w
  = (Return tt,
     mkWorld (files w) (images w) (objects w) (collection_objects w)
             (active_object w) (reports w) (attr_log w)
             (classes w ++ addon_classes)
             (view3d_mt_add w ++ [menu_func])).
Proof.
  unfold addon_classes; rewrite !Forall_cons, Forall_nil.
  run_register; rewrite <- ?app_assoc; simpl;
    intros (? & ? & ? & ? & _) ?; try discriminate; reflexivity.
Qed.

Ltac run_unregister :=
  unfold unregister, unregister_class, menu_remove, bind;
  repeat match goal with
         | |- context [unregister_raises ?u ?c] =>
             destruct (unregister_raises u c) eqn:?; simpl
         end.

(** X20.  When no host call raises, and the classes and the menu entry of
    the add-on were not there before, [unregister] after [register] gives
    back the world as it was. *)
Theorem unregister_undoes_register (h : Host) (u : Unloading) (w : World) :
  Forall (fun c => raises h (RegisterClass c) = None) addon_classes ->
  raises h MenuAppend = None ->
  Forall (fun c => unregister_raises u c = None) addon_classes ->
  Forall (fun c => ~ In c (classes w)) addon_classes ->
  ~ In menu_func (view3d_mt_add w) ->
  unregister u (snd (register h w)) = (Return tt, w).
Proof.
  intros Hreg Hmenu Hunreg Hfresh Hentry.
  rewrite (register_done h w Hreg Hmenu); simpl.
  unfold addon_classes in Hunreg, Hfresh.
  repeat (apply Forall_cons in Hunreg; destruct Hunreg as [? Hunreg]).
  repeat (apply Forall_cons in Hfresh; destruct Hfresh as [? Hfresh]).
  unfold unregister, unregister_class, menu_remove, bind.
  repeat match goal with
         | H : unregister_raises u ?c = None |- _ => rewrite H; clear H
         end; simpl.
  unfold addon_classes.
  rewrite (remove_first_later InstallPillowOperator) by assumption.
  rewrite remove_first_here.
  rewrite (remove_first_later PastePureRefImageOperator) by assumption.
  rewrite remove_first_here.
  rewrite (remove_first_later PastePureRefFromCursorOperator) by assumption.
  rewrite remove_first_here.
  rewrite (remove_first_later PasterefPreferences) by assumption.
  rewrite remove_first_here.
  rewrite (remove_first_later menu_func) by assumption.
  rewrite remove_first_here, !app_nil_r.
  destruct w; reflexivity.
Qed.

Lemma unregister_undoes_register_witness :
  unregister quiet_unloading (snd (register quiet_host empty_world))
  = (Return tt, empty_world).
Proof.
  apply (unregister_undoes_register quiet_host quiet_unloading empty_world).
  - repeat constructor.
  - reflexivity.
  - repeat constructor.
  - repeat constructor; intros [].
  - intros [].
Defined.

(** X21.  When [unregister] raises, the classes before the failing call
    are unregistered, while the entry of the Add menu stays. *)
Theorem failed_unregister_keeps_menu (u : Unloading) (w : World)
    (e : py_exception) :
  fst (unregister u w) = Raise e ->
  view3d_mt_add (snd (unregister u w)) = view3d_mt_add w /\
  exists (done : list addon_class) (c : addon_class)
         (rest : list addon_class),
    addon_classes = done ++ c :: rest /\
    Forall (fun c => unregister_raises u c = None) done /\
    unregister_raises u c = Some e /\
    classes (snd (unregister u w))
    = foldl (fun l c => remove_first c l) (classes w) done.
Proof.
  run_unregister; intros He; try discriminate He; injection He as <-;
    (split; [reflexivity |]).
  all: first
    [ solve [exists []; eexists _, _; split; [reflexivity |];
             split; [repeat constructor; assumption |];
             split; [eassumption | reflexivity]]
    | solve [exists [InstallPillowOperator]; eexists _, _;
             split; [reflexivity |];
             split; [repeat constructor; assumption |];
             split; [eassumption | reflexivity]]
    | solve [exists [InstallPillowOperator; PastePureRefImageOperator];
             eexists _, _; split; [reflexivity |];
             split; [repeat constructor; assumption |];
             split; [eassumption | reflexivity]]
    | solve [exists [InstallPillowOperator; PastePureRefImageOperator;
                     PastePureRefFromCursorOperator];
             eexists _, _; split; [reflexivity |];
             split; [repeat constructor; assumption |];
             split; [eassumption | reflexivity]] ].
Qed.

Lemma failed_unregister_keeps_menu_witness :
  view3d_mt_add (snd (unregister stuck_unloading
                        (snd (register quiet_host empty_world))))
  = [menu_func].
Proof.
  exact (proj1 (failed_unregister_keeps_menu stuck_unloading
                  (snd (register quiet_host empty_world))
                  (mkException false "not registered") eq_refl)).
Defined.

(** *** The preferences panel *)

(** X22.  [ensure_pillow] answers [True] when the import succeeds and
    [False] when it raises [ImportError]; [PasterefPreferences.draw] then
    adds nothing, or the install button and the restart label.  Any other
    exception of the import leaves both. *)
Theorem preferences_offer_install (import_statement : M unit) (w : World) :
  match import_statement w with
  | (Return _, w1) =>
      ensure_pillow import_statement w = (Return true, w1) /\
      PasterefPreferences_draw import_statement w = (Return [], w1)
  | (Raise e, w1) =>
      if exc_is_import_error e then
        ensure_pillow import_statement w = (Return false, w1) /\
        PasterefPreferences_draw import_statement w
        = (Return [LayoutOperator "preferences.install_pillow" "Install Pillow";
                   LayoutLabel "Please restart Blender after installation."
                               "INFO"], w1)
      else
        ensure_pillow import_statement w = (Raise e, w1) /\
        PasterefPreferences_draw import_statement w = (Raise e, w1)
  end.
Proof.
  unfold PasterefPreferences_draw, ensure_pillow, try_except, bind, ret, raise.
  destruct (import_statement w) as [[[] | e] w1]; simpl.
  - split; reflexivity.
  - destruct (exc_is_import_error e); split; reflexivity.
Qed.

End LifecycleFacts.
